(** * The MCP weather server of [src/service.ts]

    A shallow embedding of the two parts of the server that carry logic:
    the [get_city_weather] tool (input schema, table lookup, unit
    conversion, result construction) and the [/mcp] endpoint (the
    session registry [activeTransports] and the routing of a request to
    a transport), followed by the properties the specification states
    about them.

    The JavaScript that the source relies on is written out in [Js]:
    truthiness, property lookup through [Object.prototype], binary64
    arithmetic and [parseFloat(x.toFixed(1))]. *)

From Stdlib Require Import ZArith QArith Qabs Qround List String Ascii Lia.
From Stdlib Require Import SpecFloat.
From stdpp Require Import gmap strings list.

Local Open Scope Z_scope.

(** ** The JavaScript runtime, as far as the source uses it *)
Module Js.

(** *** Strings *)

(** [!!s] for a string: only the empty string is falsy. *)
Definition truthy_string (s : string) : bool :=
  match s with
  | EmptyString => false
  | String _ _ => true
  end.

(** [String.prototype.toLowerCase] on ASCII text: on a string of ASCII
    characters this is the built-in, and a character outside [A-Z] is
    left as it is.  The built-in also folds the cased characters beyond
    ASCII; what holds of every string is stated over the fold as a
    parameter, in [Folded]. *)
Definition lower_ascii (c : ascii) : ascii :=
  let n := N_of_ascii c in
  if ((65 <=? n) && (n <=? 90))%N then ascii_of_N (n + 32) else c.

Fixpoint toLowerCase (s : string) : string :=
  match s with
  | EmptyString => EmptyString
  | String c rest => String (lower_ascii c) (toLowerCase rest)
  end.

(** *** Objects used as maps

    [dummyWeatherData] and [activeTransports] are plain objects (an
    object literal), so reading [o[k]] consults the object's own
    properties first and [Object.prototype] next.  These are the
    property names every plain object inherits. *)
Definition object_prototype_keys : list string :=
  [ "constructor"; "__defineGetter__"; "__defineSetter__"; "hasOwnProperty";
    "__lookupGetter__"; "__lookupSetter__"; "isPrototypeOf";
    "propertyIsEnumerable"; "toString"; "valueOf"; "__proto__";
    "toLocaleString" ]%string.

(** The value of [o[k]]: an own property, a member inherited from
    [Object.prototype] (a built-in function, or [Object.prototype]
    itself for ["__proto__"]), or [undefined]. *)
Inductive Property (A : Type) : Type :=
| Own (a : A)
| Inherited (name : string)
| Undefined.
Arguments Own {A} a.
Arguments Inherited {A} name.
Arguments Undefined {A}.

Definition get {A : Type} (o : gmap string A) (k : string) : Property A :=
  match o !! k with
  | Some a => Own a
  | None =>
      if bool_decide (k ∈ object_prototype_keys) then Inherited k else Undefined
  end.

(** Own properties hold objects here (records, transports), and the
    inherited members are functions or objects: all truthy. *)
Definition truthy {A : Type} (v : Property A) : bool :=
  match v with
  | Own _ | Inherited _ => true
  | Undefined => false
  end.

(** *** Exceptions *)
Inductive Error : Type :=
| TypeError (message : string).

Inductive Completion (A : Type) : Type :=
| Return (a : A)
| Throw (e : Error).
Arguments Return {A} a.
Arguments Throw {A} e.

(** *** Numbers

    A JavaScript number is an IEEE 754 binary64 value: [spec_float] with
    a 53-bit significand, every operation rounding to nearest, ties to
    even. *)
Definition number : Type := spec_float.
Definition prec : Z := 53.
Definition emax : Z := 1024.

(** The number denoted by an integer literal. *)
Definition of_Z (z : Z) : number := binary_normalize prec emax z 0 false.

#[global] Instance number_eq_dec : EqDecision number.
Proof. solve_decision. Defined.

Definition add : number -> number -> number := SFadd prec emax.
Definition sub : number -> number -> number := SFsub prec emax.
Definition mul : number -> number -> number := SFmul prec emax.
Definition div : number -> number -> number := SFdiv prec emax.

(** [x.toFixed(1)], as the string's content.  For a finite [x] below
    [10^21] in magnitude the digits are those of the integer [n] for
    which [n / 10 - |x|] is as close to zero as possible, the larger
    [n] on a tie, with a minus sign when [x < 0]. *)
Inductive FixedString : Type :=
| FixedNaN
| FixedInfinity (negative : bool)
| FixedDigits (negative : bool) (tenths : Z)
| FixedExponential (x : number).

(** The integer [n] closest to [10 * m * 2^e], the larger one on a tie. *)
Definition tenths_of (m : positive) (e : Z) : Z :=
  match e with
  | Zneg k => (20 * Zpos m + 2 ^ Zpos k) / 2 ^ (Zpos k + 1)
  | _ => 10 * Zpos m * 2 ^ e
  end.

(** [10^21 <= m * 2^e] *)
Definition at_least_1e21 (m : positive) (e : Z) : bool :=
  match e with
  | Zneg k => 10 ^ 21 * 2 ^ Zpos k <=? Zpos m
  | _ => 10 ^ 21 <=? Zpos m * 2 ^ e
  end.

Definition toFixed1 (x : number) : FixedString :=
  match x with
  | S754_nan => FixedNaN
  | S754_infinity s => FixedInfinity s
  | S754_zero _ => FixedDigits false 0
  | S754_finite s m e =>
      if at_least_1e21 m e then FixedExponential x
      else FixedDigits s (tenths_of m e)
  end.

(** [parseFloat] of such a string: the binary64 value nearest to the
    decimal it spells.  The exponential form of a number reads back as
    that number. *)
Definition parseFloat (s : FixedString) : number :=
  match s with
  | FixedNaN => S754_nan
  | FixedInfinity neg => S754_infinity neg
  | FixedDigits neg n =>
      match n with
      | Zpos p => div (S754_finite neg p 0) (S754_finite false 10 0)
      | _ => S754_zero neg
      end
  | FixedExponential x => x
  end.

End Js.

(** ** The [get_city_weather] tool *)
Module Weather.
Import Js.

(** ['metric' | 'imperial'] *)
Inductive Unit : Type := metric | imperial.

#[global] Instance Unit_eq_dec : EqDecision Unit.
Proof. solve_decision. Defined.

(** [interface WeatherData] *)
Module WeatherData.
Record t : Type := Build {
  temperature : number;
  description : string;
  humidity : number;
  unit : Unit;
}.
End WeatherData.

(** [const dummyWeatherData] *)
Definition dummyWeatherData : gmap string WeatherData.t :=
  {[ "paris" := WeatherData.Build (of_Z 15) "Cloudy" (of_Z 70) metric;
     "london" := WeatherData.Build (of_Z 12) "Rainy" (of_Z 85) metric;
     "tokyo" := WeatherData.Build (of_Z 22) "Sunny" (of_Z 60) metric ]}%string.

(** The arguments of a call as the client sends them, for a call that
    passes the schema: [city] a string, [unit] one of the two enum
    values or omitted. *)
Module RawArgs.
Record t : Type := Build {
  city : string;
  unit : option Unit;
}.
End RawArgs.

(** The arguments as the handler receives them. *)
Module Args.
Record t : Type := Build {
  city : string;
  unit : Unit;
}.
End Args.

(** [inputSchema]: [city: z.string().toLowerCase()],
    [unit: z.enum([...]).optional().default("metric")]. *)
Definition inputSchema (raw : RawArgs.t) : Args.t :=
  Args.Build (toLowerCase (RawArgs.city raw)) (default metric (RawArgs.unit raw)).

(** [structuredOutput], with the fields of [outputSchema]. *)
Module StructuredOutput.
Record t : Type := Build {
  city : string;
  temperature : number;
  unit : Unit;
  description : string;
  humidity : number;
}.
End StructuredOutput.

(** A template literal after substitution of its strings: what is left
    is text and the numbers still to be printed. *)
Inductive Piece : Type :=
| Str (s : string)
| Num (x : number).

(** [{ type: "text", text }] *)
Inductive ContentBlock : Type :=
| TextContent (text : list Piece).

(** [CallToolResult], with the three fields the handler sets; an absent
    field is [None]. *)
Module CallToolResult.
Record t : Type := Build {
  isError : option bool;
  content : list ContentBlock;
  structuredContent : option StructuredOutput.t;
}.
End CallToolResult.

(** One run of the handler: the log notification it sends first, then
    how it completes. *)
Module Run.
Record t : Type := Build {
  notification : string;
  completion : Completion CallToolResult.t;
}.
End Run.

(** The two branches that convert, and the unit that goes with the
    number (lines 83-92). *)
Definition display (unit : Unit) (weather : WeatherData.t) : number * Unit :=
  let displayTemperature := WeatherData.temperature weather in
  let displayUnit := WeatherData.unit weather in
  if bool_decide (unit = imperial) && bool_decide (WeatherData.unit weather = metric) then
    (add (div (mul (WeatherData.temperature weather) (of_Z 9)) (of_Z 5)) (of_Z 32), imperial)
  else if bool_decide (unit = metric) && bool_decide (WeatherData.unit weather = imperial) then
    (div (mul (sub (WeatherData.temperature weather) (of_Z 32)) (of_Z 5)) (of_Z 9), metric)
  else (displayTemperature, displayUnit).

(** The handler registered for [get_city_weather], over the table it
    reads.  A key that [Object.prototype] answers makes [weather] a
    built-in without [temperature]: [displayTemperature] is
    [undefined], neither branch converts, and [.toFixed] throws. *)
Definition handler (data : gmap string WeatherData.t) (args : Args.t) : Run.t :=
  let city := Args.city args in
  let unit := Args.unit args in
  Run.Build ("Processing weather request for " +:+ city)
    match get data (toLowerCase city) with
    | Undefined =>
        Return (CallToolResult.Build (Some true)
          [TextContent [Str ("Sorry, I don't have weather data for " +:+ city +:+ ".")]]
          None)
    | Inherited _ =>
        Throw (TypeError "Cannot read properties of undefined (reading 'toFixed')")
    | Own weather =>
        let '(displayTemperature, displayUnit) := display unit weather in
        let displayTemperature := parseFloat (toFixed1 displayTemperature) in
        let responseText :=
          [ Str ("The weather in " +:+ city +:+ " is ");
            Num displayTemperature;
            Str ("°" +:+ (if bool_decide (displayUnit = metric) then "C" else "F")
                 +:+ ", " +:+ WeatherData.description weather +:+ " with ");
            Num (WeatherData.humidity weather);
            Str "% humidity." ] in
        let structuredOutput :=
          StructuredOutput.Build city displayTemperature displayUnit
            (WeatherData.description weather) (WeatherData.humidity weather) in
        Return (CallToolResult.Build None [TextContent responseText] (Some structuredOutput))
    end.

(** A tool call over a table: the schema first, the handler next. *)
Definition call_on (data : gmap string WeatherData.t) (raw : RawArgs.t) : Run.t :=
  handler data (inputSchema raw).

(** The tool as the server registers it, over [dummyWeatherData]. *)
Definition get_city_weather (raw : RawArgs.t) : Run.t :=
  call_on dummyWeatherData raw.

(** The structured payload of a run, when it has one. *)
Definition structured (r : Run.t) : option StructuredOutput.t :=
  match Run.completion r with
  | Return result => CallToolResult.structuredContent result
  | Throw _ => None
  end.

End Weather.

(** ** The [/mcp] endpoint and the registry [activeTransports] *)
Module Router.
Import Js.

(** *** Requests and responses *)

(** A parsed JSON body. *)
#[local] Unset Elimination Schemes.
Inductive Json : Type :=
| JNull
| JBool (b : bool)
| JNumber (x : number)
| JString (s : string)
| JArray (items : list Json)
| JObject (fields : list (string * Json)).
#[local] Set Elimination Schemes.

(** Truthiness of a JSON value. *)
Definition truthy_json (v : Json) : bool :=
  match v with
  | JNull => false
  | JBool b => b
  | JNumber (S754_zero _) | JNumber S754_nan => false
  | JNumber _ => true
  | JString s => truthy_string s
  | JArray _ | JObject _ => true
  end.

(** The member [k] of a parsed object: the last one of that name. *)
Fixpoint member (k : string) (fields : list (string * Json)) : option Json :=
  match fields with
  | [] => None
  | (k', v) :: rest =>
      match member k rest with
      | Some later => Some later
      | None => if bool_decide (k' = k) then Some v else None
      end
  end.

(** [(req.body as any)?.id || null]: only an object carries an [id],
    and a falsy one reads as [null]. *)
Definition id_or_null (body : option Json) : Json :=
  match body with
  | Some (JObject fields) =>
      match member "id" fields with
      | Some v => if truthy_json v then v else JNull
      | None => JNull
      end
  | _ => JNull
  end.

Module Request.
Record t : Type := Build {
  method : string;
  (** [req.headers['mcp-session-id']], [None] when the header is absent *)
  mcp_session_id : option string;
  (** [req.body], [None] when [undefined] *)
  body : option Json;
}.
End Request.

(** [res.status(status).json({ jsonrpc: "2.0", error: { code, message }, id })] *)
Module Response.
Record t : Type := Build {
  status : Z;
  code : Z;
  message : string;
  id : Json;
}.
End Response.

(** *** Transports

    A transport is an object of the SDK; the registry holds references
    to transports, and [transport.sessionId] is a field the SDK
    assigns once.  A reference is the number of the transport in order
    of construction. *)
Definition TransportRef : Type := nat.

(** What a call of the endpoint ends in: the request is passed to a
    transport ([transport.handleRequest(req, res, req.body)], whose
    answer is the SDK's), or the endpoint answers with an error. *)
Inductive Outcome : Type :=
| Handled (transport : TransportRef)
| Responded (response : Response.t).

(** [randomUUID()] returns a string of 36 characters, lower-case
    hexadecimal digits in five groups separated by dashes. *)
Definition is_hex (c : ascii) : bool :=
  let n := N_of_ascii c in
  (((48 <=? n) && (n <=? 57)) || ((97 <=? n) && (n <=? 102)))%N.

Definition is_dash (c : ascii) : bool := (N_of_ascii c =? 45)%N.

Fixpoint uuid_from (i : nat) (s : string) : bool :=
  match s with
  | EmptyString => Nat.eqb i 36
  | String c rest =>
      (if Nat.eqb i 8 || Nat.eqb i 13 || Nat.eqb i 18 || Nat.eqb i 23
       then is_dash c else is_hex c)
      && uuid_from (S i) rest
  end.

Definition uuid_shaped (s : string) : bool := uuid_from 0 s.

Record Uuid : Type := MkUuid {
  uuid_string : string;
  uuid_ok : uuid_shaped uuid_string = true;
}.

(** *** The state of the server *)
Module State.
Record t : Type := Build {
  (** [const activeTransports] *)
  activeTransports : gmap string TransportRef;
  (** [transport.sessionId] of the transports that have one *)
  sessionId : gmap TransportRef string;
  (** how many transports have been constructed *)
  constructed : nat;
}.
End State.

Definition initial : State.t := State.Build ∅ ∅ 0.

Definition with_registry (st : State.t) (reg : gmap string TransportRef) : State.t :=
  State.Build reg (State.sessionId st) (State.constructed st).

(** What every reachable state satisfies: a key of the registry is
    the session identifier of the transport it maps to, and session
    identifiers come from the generator and belong to constructed
    transports. *)
Definition consistent (st : State.t) : Prop :=
  (∀ k t, State.activeTransports st !! k = Some t → State.sessionId st !! t = Some k)
  ∧ (∀ t k, State.sessionId st !! t = Some k →
       uuid_shaped k = true ∧ (t < State.constructed st)%nat).

(** A retired transport: it has its session identifier and is out of
    the registry. *)
Definition retired (t : TransportRef) (st : State.t) : Prop :=
  is_Some (State.sessionId st !! t)
  ∧ (t < State.constructed st)%nat
  ∧ ∀ k, State.activeTransports st !! k ≠ Some t.

(** *** The callbacks given to a transport *)

(** [onsessioninitialized]: [activeTransports[newSessionId] = transport].
    [newSessionId] is what [sessionIdGenerator] returned, a string of
    the shape of [randomUUID()]; a key of that shape is written as an
    own property of the object. *)
Definition onsessioninitialized (reg : gmap string TransportRef)
    (newSessionId : Uuid) (transport : TransportRef) : gmap string TransportRef :=
  <[uuid_string newSessionId := transport]> reg.

(** [transport.onclose]: [sid] is [transport.sessionId] at the time of
    the call. *)
Definition onclose (reg : gmap string TransportRef) (sid : option string)
    : gmap string TransportRef :=
  match sid with
  | Some sid =>
      if truthy_string sid && truthy (get reg sid) then delete sid reg else reg
  | None => reg
  end.

(** *** The endpoint *)
Section Endpoint.

(** [isInitializeRequest] of the SDK, applied to [req.body]. *)
Variable isInitializeRequest : option Json -> bool.

Definition session_not_found (req : Request.t) : Response.t :=
  Response.Build 404 (-32001) "Session not found. Please re-initialize."
    (id_or_null (Request.body req)).

Definition bad_request (req : Request.t) : Response.t :=
  Response.Build 400 (-32600)
    "Bad Request: Session ID required or invalid initialization."
    (id_or_null (Request.body req)).

Definition internal_error (req : Request.t) : Response.t :=
  Response.Build 500 (-32000) "Internal Server Error"
    (id_or_null (Request.body req)).

(** [sessionId && ...]: the header is there and not empty. *)
Definition has_session_id (req : Request.t) : bool :=
  match Request.mcp_session_id req with
  | Some sessionId => truthy_string sessionId
  | None => false
  end.

(** [activeTransports[sessionId]] *)
Definition registered (st : State.t) (req : Request.t) : Property TransportRef :=
  match Request.mcp_session_id req with
  | Some sessionId => get (State.activeTransports st) sessionId
  | None => Undefined
  end.

(** The four branches (lines 141-177): the value of [transport]
    for the first two, the response for the last two.  The second
    branch constructs a transport. *)
Definition choose (st : State.t) (req : Request.t)
    : State.t * (Property TransportRef + Response.t) :=
  if has_session_id req && truthy (registered st req) then
    (st, inl (registered st req))
  else if negb (has_session_id req)
          && bool_decide (Request.method req = "POST")
          && isInitializeRequest (Request.body req) then
    (State.Build (State.activeTransports st) (State.sessionId st)
                 (S (State.constructed st)),
     inl (Own (State.constructed st)))
  else if has_session_id req && negb (truthy (registered st req)) then
    (st, inr (session_not_found req))
  else
    (st, inr (bad_request req)).

(** [try { await transport.handleRequest(...) } catch ...]: calling
    [handleRequest] on a value that is not a transport throws inside
    the [try], before any header is sent. *)
Definition deliver (req : Request.t) (transport : Property TransportRef) : Outcome :=
  match transport with
  | Own t => Handled t
  | Inherited _ | Undefined => Responded (internal_error req)
  end.

(** [app.all('/mcp', ...)] *)
Definition mcp (st : State.t) (req : Request.t) : State.t * Outcome :=
  match choose st req with
  | (st', inl transport) => (st', deliver req transport)
  | (st', inr response) => (st', Responded response)
  end.

(** *** The server over time

    Besides requests, the SDK calls back: once a constructed
    transport has handled its initialization request it takes
    [sessionIdGenerator()] as its [sessionId] and calls
    [onsessioninitialized]; when a transport closes it calls
    [onclose]. *)
Inductive Event : Type :=
| Req (req : Request.t)
| SessionInitialized (transport : TransportRef) (newSessionId : Uuid)
| Closed (transport : TransportRef).

Definition step (st : State.t) (ev : Event) : State.t * option Outcome :=
  match ev with
  | Req req => let '(st', out) := mcp st req in (st', Some out)
  | SessionInitialized transport newSessionId =>
      (* the SDK initializes a transport it was given, and only once *)
      if bool_decide (transport < State.constructed st)%nat
         && bool_decide (State.sessionId st !! transport = None) then
        (State.Build
           (onsessioninitialized (State.activeTransports st) newSessionId transport)
           (<[transport := uuid_string newSessionId]> (State.sessionId st))
           (State.constructed st),
         None)
      else (st, None)
  | Closed transport =>
      (with_registry st
         (onclose (State.activeTransports st) (State.sessionId st !! transport)),
       None)
  end.

Fixpoint run (st : State.t) (events : list Event) : State.t :=
  match events with
  | [] => st
  | ev :: rest => run (fst (step st ev)) rest
  end.

(** The generator does not give [sid] out in [events]. *)
Definition not_issued_in (sid : string) (events : list Event) : Prop :=
  ∀ transport newSessionId,
    SessionInitialized transport newSessionId ∈ events →
    uuid_string newSessionId ≠ sid.

End Endpoint.

(** *** The registry of the specification (4.1), in its words:
    [insert] fails with [DuplicateSessionError] if [id] is already
    present and stores the binding otherwise. *)
Inductive InsertResult : Type :=
| Stored (reg : gmap string TransportRef)
| DuplicateSessionError.

Definition spec_insert (reg : gmap string TransportRef) (id : string)
    (transport : TransportRef) : InsertResult :=
  match reg !! id with
  | Some _ => DuplicateSessionError
  | None => Stored (<[id := transport]> reg)
  end.

End Router.


(** ** The conversion of the specification, over exact values

    The Celsius/Fahrenheit transform on rationals and the rounding to one
    decimal place, in the words of the specification (4.4); the handler's
    binary64 computation is compared with it below. *)
Module Exact.
Import Js Weather.

Definition convert (source requested : Unit) (t : Q) : Q :=
  match source, requested with
  | metric, imperial => (t * (9 # 5) + 32)%Q
  | imperial, metric => ((t - 32) * (5 # 9))%Q
  | _, _ => t
  end.

(** The number of tenths nearest to [t], a half going away from zero. *)
Definition round_tenths (t : Q) : Z :=
  let n := Qfloor (Qabs t * 10 + (1 # 2))%Q in
  if Qle_bool 0 t then n else - n.

(** The number that the decimal [n / 10] denotes: the binary64 value
    nearest to it. *)
Definition number_of_tenths (n : Z) : number :=
  parseFloat (FixedDigits (n <? 0) (Z.abs n)).

(** A reading of [z] whole degrees in the unit [u]. *)
Definition reading (z : Z) (u : Unit) : WeatherData.t :=
  WeatherData.Build (of_Z z) "" (of_Z 0) u.

(** The handler's number for a reading of [z] whole degrees asked for in
    the unit [requested] is the exact conversion to one decimal place. *)
Definition agrees (source requested : Unit) (z : Z) : bool :=
  bool_decide
    (parseFloat (toFixed1 (fst (display requested (reading z source))))
     = number_of_tenths (round_tenths (convert source requested (inject_Z z)))).

Definition agrees_everywhere (z : Z) : bool :=
  agrees metric imperial z && agrees imperial metric z
  && agrees metric metric z && agrees imperial imperial z
  && bool_decide (number_of_tenths (10 * z) = of_Z z).

(** A reading with one decimal, [n] tenths of a degree, comes back from
    [parseFloat(x.toFixed(1))] as it went in. *)
Definition unchanged (n : Z) : bool :=
  bool_decide (parseFloat (toFixed1 (number_of_tenths n)) = number_of_tenths n).

(** The integers from [lo], [n] of them. *)
Definition integers_from (lo n : Z) : list Z :=
  map (fun i => lo + Z.of_nat i) (seq 0 (Z.to_nat n)).

(** A reading of [z] whole degrees Celsius, converted to Fahrenheit by
    one call and back to Celsius by another, is [z] again. *)
Definition there_and_back (z : Z) : bool :=
  let fahrenheit := parseFloat (toFixed1 (fst (display imperial (reading z metric)))) in
  bool_decide
    (parseFloat (toFixed1 (fst (display metric (WeatherData.Build fahrenheit "" (of_Z 0) imperial))))
     = of_Z z).

End Exact.

(** ** The tool over the fold of the runtime

    [String.prototype.toLowerCase] folds every cased character of
    Unicode, and [Js.toLowerCase] is that function on ASCII text.  What
    the tool does with the casing of a city is stated for every string
    over the fold as a parameter: the schema and the handler are the
    ones above with the fold left open, and the one property of the
    built-in that is used is that folding twice is folding once. *)
Module Folded.
Import Js Weather.

Section Fold.

(** [String.prototype.toLowerCase] *)
Variable fold : string -> string.

(** [inputSchema], lines 47-50. *)
Definition inputSchema_with (raw : RawArgs.t) : Args.t :=
  Args.Build (fold (RawArgs.city raw)) (default metric (RawArgs.unit raw)).

(** The handler, lines 64-111. *)
Definition handler_with (data : gmap string WeatherData.t) (args : Args.t) : Run.t :=
  let city := Args.city args in
  let unit := Args.unit args in
  Run.Build ("Processing weather request for " +:+ city)
    match get data (fold city) with
    | Undefined =>
        Return (CallToolResult.Build (Some true)
          [TextContent [Str ("Sorry, I don't have weather data for " +:+ city +:+ ".")]]
          None)
    | Inherited _ =>
        Throw (TypeError "Cannot read properties of undefined (reading 'toFixed')")
    | Own weather =>
        let '(displayTemperature, displayUnit) := display unit weather in
        let displayTemperature := parseFloat (toFixed1 displayTemperature) in
        let responseText :=
          [ Str ("The weather in " +:+ city +:+ " is ");
            Num displayTemperature;
            Str ("°" +:+ (if bool_decide (displayUnit = metric) then "C" else "F")
                 +:+ ", " +:+ WeatherData.description weather +:+ " with ");
            Num (WeatherData.humidity weather);
            Str "% humidity." ] in
        let structuredOutput :=
          StructuredOutput.Build city displayTemperature displayUnit
            (WeatherData.description weather) (WeatherData.humidity weather) in
        Return (CallToolResult.Build None [TextContent responseText] (Some structuredOutput))
    end.

(** A tool call: the schema first, the handler next. *)
Definition call_with (data : gmap string WeatherData.t) (raw : RawArgs.t) : Run.t :=
  handler_with data (inputSchema_with raw).

End Fold.

(** A handler that folds nothing: it looks the city up as it receives
    it (the specification, 4.4: the folding is not the handler's). *)
Definition handler_verbatim (data : gmap string WeatherData.t) (args : Args.t) : Run.t :=
  handler_with (fun city => city) data args.

End Folded.

(** * Properties *)

Import Js Weather Router Exact Folded.

(** ** The runtime *)

Lemma lower_ascii_idempotent (c : ascii) : lower_ascii (lower_ascii c) = lower_ascii c.
Proof. destruct c as [[] [] [] [] [] [] [] []]; reflexivity. Qed.

Lemma toLowerCase_idempotent (s : string) : toLowerCase (toLowerCase s) = toLowerCase s.
Proof.
  induction s as [|c s IH]; simpl; [reflexivity|].
  now rewrite lower_ascii_idempotent, IH.
Qed.

Lemma get_own {A} (o : gmap string A) k a : o !! k = Some a → get o k = Own a.
Proof. intros H. unfold get. now rewrite H. Qed.

Lemma get_undefined {A} (o : gmap string A) k :
  get o k = Undefined ↔ o !! k = None ∧ k ∉ object_prototype_keys.
Proof.
  unfold get. destruct (o !! k) as [a|]; [split; [discriminate | intros [? _]; discriminate]|].
  case_bool_decide; split; try discriminate; try tauto; intros; now split.
Qed.

Lemma get_inherited {A} (o : gmap string A) k :
  o !! k = None → k ∈ object_prototype_keys → get o k = Inherited k.
Proof. intros H Hk. unfold get. rewrite H. now rewrite bool_decide_eq_true_2. Qed.

(** [toFixed(1)] picks the number of tenths nearest to the value: for
    [m / 2^k], the [n] with [n - 1/2 <= 10 * m / 2^k < n + 1/2]. *)
Lemma tenths_of_nearest m k :
  (2 * tenths_of m (Zneg k) - 1) * 2 ^ Zpos k
  <= 20 * Zpos m
  < (2 * tenths_of m (Zneg k) + 1) * 2 ^ Zpos k.
Proof.
  unfold tenths_of.
  assert (Hp : 0 < 2 ^ Zpos k) by (apply Z.pow_pos_nonneg; lia).
  rewrite Z.pow_add_r, Z.pow_1_r by lia.
  pose proof (Z.div_mod (20 * Zpos m + 2 ^ Zpos k) (2 ^ Zpos k * 2) ltac:(lia)) as Hd.
  pose proof (Z.mod_pos_bound (20 * Zpos m + 2 ^ Zpos k) (2 ^ Zpos k * 2) ltac:(lia)) as Hm.
  nia.
Qed.

(** ** The weather tool *)

(** A known city: the run of the tool, in full. *)
Lemma call_on_known data raw w :
  data !! toLowerCase (RawArgs.city raw) = Some w →
  call_on data raw =
    let city := toLowerCase (RawArgs.city raw) in
    let shown := display (default metric (RawArgs.unit raw)) w in
    let displayTemperature := parseFloat (toFixed1 (fst shown)) in
    Run.Build ("Processing weather request for " +:+ city)
      (Return (CallToolResult.Build None
         [TextContent
            [ Str ("The weather in " +:+ city +:+ " is ");
              Num displayTemperature;
              Str ("°" +:+ (if bool_decide (snd shown = metric) then "C" else "F")
                   +:+ ", " +:+ WeatherData.description w +:+ " with ");
              Num (WeatherData.humidity w);
              Str "% humidity." ]]
         (Some (StructuredOutput.Build city displayTemperature (snd shown)
                  (WeatherData.description w) (WeatherData.humidity w))))).
Proof.
  intros H. unfold call_on, handler, inputSchema. cbn [Args.city Args.unit].
  rewrite toLowerCase_idempotent, (get_own _ _ _ H).
  now destruct (display _ w).
Qed.

(** The unit shown is the unit asked for, whatever the record's. *)
Lemma display_unit unit w : snd (display unit w) = unit.
Proof. unfold display. destruct unit, (WeatherData.unit w); reflexivity. Qed.

(** No branch converts when the record is in the unit asked for. *)
Lemma display_same_unit w : fst (display (WeatherData.unit w) w) = WeatherData.temperature w.
Proof. unfold display. destruct (WeatherData.unit w); reflexivity. Qed.

Lemma structured_known data raw w :
  data !! toLowerCase (RawArgs.city raw) = Some w →
  structured (call_on data raw) =
    Some (StructuredOutput.Build (toLowerCase (RawArgs.city raw))
            (parseFloat (toFixed1 (fst (display (default metric (RawArgs.unit raw)) w))))
            (default metric (RawArgs.unit raw))
            (WeatherData.description w) (WeatherData.humidity w)).
Proof.
  intros H. rewrite (call_on_known _ _ _ H). cbn. now rewrite display_unit.
Qed.

(** ** Whole degrees: the binary64 computation against the exact one *)

Lemma integers_from_spec lo n z : lo <= z < lo + n -> In z (integers_from lo n).
Proof.
  intros H. unfold integers_from. apply in_map_iff.
  exists (Z.to_nat (z - lo)). split; [lia|]. apply in_seq. lia.
Qed.

Lemma agrees_in_range z : -1000 <= z <= 1000 -> agrees_everywhere z = true.
Proof.
  intros H.
  assert (Hall : forallb agrees_everywhere (integers_from (-1000) 2001) = true)
    by (vm_compute; reflexivity).
  rewrite forallb_forall in Hall. apply Hall, integers_from_spec. lia.
Qed.

Lemma unchanged_in_range n : -10000 <= n <= 10000 -> unchanged n = true.
Proof.
  intros H.
  assert (Hall : forallb unchanged (integers_from (-10000) 20001) = true)
    by (vm_compute; reflexivity).
  rewrite forallb_forall in Hall. apply Hall, integers_from_spec. lia.
Qed.

(** [display] reads the temperature and the unit of a record, nothing else. *)
Lemma display_reading requested w z :
  WeatherData.temperature w = of_Z z →
  display requested w = display requested (reading z (WeatherData.unit w)).
Proof. destruct w as [t d h u]. cbn. intros ->. reflexivity. Qed.


(** The server's table holds whole degrees Celsius. *)
Lemma dummyWeatherData_readings k w :
  dummyWeatherData !! k = Some w →
  ∃ z, -1000 <= z <= 1000 ∧ WeatherData.temperature w = of_Z z
       ∧ WeatherData.unit w = metric.
Proof.
  unfold dummyWeatherData. intros H.
  apply lookup_insert_Some in H as [[_ <-]|[_ H]].
  { exists 15. cbn. repeat split; lia. }
  apply lookup_insert_Some in H as [[_ <-]|[_ H]].
  { exists 12. cbn. repeat split; lia. }
  apply lookup_singleton_Some in H as [_ <-].
  exists 22. cbn. repeat split; lia.
Qed.

(** A whole number of degrees is the decimal with a zero after the point. *)
Lemma of_Z_tenths z : -1000 <= z <= 1000 → of_Z z = number_of_tenths (10 * z).
Proof.
  intros H. pose proof (agrees_in_range z H) as Hz. unfold agrees_everywhere in Hz.
  apply andb_prop in Hz as [_ Hz]. symmetry. eapply bool_decide_eq_true_1, Hz.
Qed.

(** ** Conversion (C4, C6, C10) *)




(** 98.6 degrees Fahrenheit, asked for in Celsius, gives 37. *)
Example body_temperature_metric :
  structured (call_on {[ "body" := WeatherData.Build (number_of_tenths 986) "" (of_Z 0) imperial ]}%string
                (RawArgs.Build "body" None))
  = Some (StructuredOutput.Build "body" (of_Z 37) metric "" (of_Z 0)).
Proof. vm_compute. reflexivity. Qed.

(** The three cities of the server, in Fahrenheit: 59, 53.6 and 71.6. *)
Example known_cities_imperial :
  map (fun city => StructuredOutput.temperature
                     <$> structured (get_city_weather (RawArgs.Build city (Some imperial))))
      ["Paris"; "London"; "Tokyo"]%string
  = [Some (of_Z 59); Some (number_of_tenths 536); Some (number_of_tenths 716)].
Proof. vm_compute. reflexivity. Qed.

(** Away from whole degrees the binary64 computation can land on the
    other side of a half: 2.25 degrees Celsius is 36.05 Fahrenheit
    exactly, which rounds to 36.1, and the handler returns 36. *)
Example quarter_degree_differs :
  let t := div (of_Z 9) (of_Z 4) in
  parseFloat (toFixed1 (fst (display imperial (WeatherData.Build t "" t metric))))
  = of_Z 36
  ∧ round_tenths (convert metric imperial (9 # 4)) = 361.
Proof. vm_compute. split; reflexivity. Qed.

(** A source reading with one decimal between -1000.0 and 1000.0 ([n]
    tenths), asked for in its own unit, comes back as it is. *)
Lemma one_decimal_unchanged data raw w n :
  data !! toLowerCase (RawArgs.city raw) = Some w →
  default metric (RawArgs.unit raw) = WeatherData.unit w →
  WeatherData.temperature w = number_of_tenths n →
  -10000 <= n <= 10000 →
  ∃ s, structured (call_on data raw) = Some s
     ∧ StructuredOutput.temperature s = WeatherData.temperature w
     ∧ StructuredOutput.unit s = WeatherData.unit w.
Proof.
  intros Hw Hu Ht Hn. eexists. split; [apply (structured_known _ _ _ Hw)|].
  cbn [StructuredOutput.temperature StructuredOutput.unit]. split; [|exact Hu].
  rewrite Hu, display_same_unit, Ht.
  pose proof (unchanged_in_range n Hn) as H. unfold unchanged in H.
  now apply bool_decide_eq_true_1 in H.
Qed.

(** C6.  For every known city of the server, a call that asks for the
    unit of the record converts nothing: the payload carries the source
    temperature unchanged, in the source unit. *)
Theorem same_unit_returns_source raw w :
  dummyWeatherData !! toLowerCase (RawArgs.city raw) = Some w →
  default metric (RawArgs.unit raw) = WeatherData.unit w →
  ∃ s, structured (get_city_weather raw) = Some s
     ∧ StructuredOutput.temperature s = WeatherData.temperature w
     ∧ StructuredOutput.unit s = WeatherData.unit w.
Proof.
  intros Hw Hu.
  destruct (dummyWeatherData_readings _ _ Hw) as (z & Hz & Ht & _).
  apply (one_decimal_unchanged dummyWeatherData raw w (10 * z) Hw Hu); [|lia].
  rewrite Ht. now apply of_Z_tenths.
Qed.

(** Paris, asked for in metric (the default): 15 degrees, as in the table. *)
Lemma paris_metric_unchanged :
  ∃ s, structured (get_city_weather (RawArgs.Build "Paris" None)) = Some s
     ∧ StructuredOutput.temperature s = of_Z 15
     ∧ StructuredOutput.unit s = metric.
Proof.
  exact (same_unit_returns_source (RawArgs.Build "Paris" None)
           (WeatherData.Build (of_Z 15) "Cloudy" (of_Z 70) metric) eq_refl eq_refl).
Defined.

(** Whatever the source reading, asking for its own unit applies no
    transform: the payload carries [parseFloat(t.toFixed(1))]. *)
Lemma same_unit_no_transform data raw w :
  data !! toLowerCase (RawArgs.city raw) = Some w →
  default metric (RawArgs.unit raw) = WeatherData.unit w →
  StructuredOutput.temperature <$> structured (call_on data raw)
  = Some (parseFloat (toFixed1 (WeatherData.temperature w))).
Proof.
  intros Hw Hu. rewrite (structured_known _ _ _ Hw). cbn.
  now rewrite Hu, display_same_unit.
Qed.

(** C10.  For a known city, whatever units are requested, the payloads
    carry the record's description and humidity (and the same city):
    the requested unit shows in the temperature and unit fields only. *)
Theorem unit_changes_temperature_and_unit_only data city w unit1 unit2 :
  data !! toLowerCase city = Some w →
  ∃ s1 s2,
    structured (call_on data (RawArgs.Build city unit1)) = Some s1
    ∧ structured (call_on data (RawArgs.Build city unit2)) = Some s2
    ∧ StructuredOutput.description s1 = WeatherData.description w
    ∧ StructuredOutput.description s2 = WeatherData.description w
    ∧ StructuredOutput.humidity s1 = WeatherData.humidity w
    ∧ StructuredOutput.humidity s2 = WeatherData.humidity w
    ∧ StructuredOutput.city s1 = StructuredOutput.city s2.
Proof.
  intros Hw. do 2 eexists.
  split; [apply (structured_known _ (RawArgs.Build city unit1) _ Hw)|].
  split; [apply (structured_known _ (RawArgs.Build city unit2) _ Hw)|].
  repeat split.
Qed.

(** London in metric and in imperial: rainy, 85% humidity. *)
Lemma london_description_humidity :
  ∃ s1 s2,
    structured (get_city_weather (RawArgs.Build "London" None)) = Some s1
    ∧ structured (get_city_weather (RawArgs.Build "London" (Some imperial))) = Some s2
    ∧ StructuredOutput.description s1 = "Rainy"%string
    ∧ StructuredOutput.description s2 = "Rainy"%string
    ∧ StructuredOutput.humidity s1 = of_Z 85
    ∧ StructuredOutput.humidity s2 = of_Z 85
    ∧ StructuredOutput.city s1 = StructuredOutput.city s2.
Proof.
  exact (unit_changes_temperature_and_unit_only dummyWeatherData "London"
           (WeatherData.Build (of_Z 12) "Rainy" (of_Z 85) metric) None (Some imperial) eq_refl).
Defined.

(** ** A city the table does not have (C5, C9) *)

(** What the handler returns when the lookup finds nothing. *)
Lemma call_on_miss data raw :
  get data (toLowerCase (RawArgs.city raw)) = Undefined →
  Run.completion (call_on data raw) =
    Return (CallToolResult.Build (Some true)
      [TextContent [Str ("Sorry, I don't have weather data for "
                         +:+ toLowerCase (RawArgs.city raw) +:+ ".")]]
      None).
Proof.
  intros H. unfold call_on, handler, inputSchema. cbn [Args.city Args.unit Run.completion].
  now rewrite toLowerCase_idempotent, H.
Qed.

(** A structured payload comes with a record of the table only. *)
Lemma structured_only_for_known data raw s :
  structured (call_on data raw) = Some s →
  ∃ w text, data !! toLowerCase (RawArgs.city raw) = Some w
    ∧ Run.completion (call_on data raw)
      = Return (CallToolResult.Build None [TextContent text] (Some s)).
Proof.
  destruct (data !! toLowerCase (RawArgs.city raw)) as [w|] eqn:Hw.
  - rewrite (call_on_known _ _ _ Hw). cbn. intros [= <-]. now do 2 eexists.
  - unfold structured, call_on, handler, inputSchema.
    cbn [Args.city Args.unit Run.completion].
    rewrite toLowerCase_idempotent. unfold get. rewrite Hw.
    case_bool_decide; discriminate.
Qed.

(** C9.  When the lookup reports a miss (the handler's [!weather]), the
    result is the error flag and one text block, with no
    [structuredContent]; and whenever a run carries a structured
    payload, it is the success path: the city is in the table and the
    result has no error flag. *)
Theorem miss_has_no_structured_content data raw :
  get data (toLowerCase (RawArgs.city raw)) = Undefined →
  (∃ text, Run.completion (call_on data raw)
           = Return (CallToolResult.Build (Some true) [TextContent [Str text]] None))
  ∧ structured (call_on data raw) = None
  ∧ ∀ data' raw' s,
      structured (call_on data' raw') = Some s →
      is_Some (data' !! toLowerCase (RawArgs.city raw'))
      ∧ ∃ result, Run.completion (call_on data' raw') = Return result
                  ∧ CallToolResult.isError result = None.
Proof.
  intros H. pose proof (call_on_miss _ _ H) as Hc. split; [|split].
  - eexists. exact Hc.
  - unfold structured. now rewrite Hc.
  - intros data' raw' s Hs.
    destruct (structured_only_for_known _ _ _ Hs) as (w & text & Hw & Hr).
    split; [now exists w|]. eexists. split; [exact Hr|reflexivity].
Qed.

(** Atlantis is not in the server's table. *)
Lemma atlantis_has_no_structured_content :
  (∃ text, Run.completion (get_city_weather (RawArgs.Build "Atlantis" None))
           = Return (CallToolResult.Build (Some true) [TextContent [Str text]] None))
  ∧ structured (get_city_weather (RawArgs.Build "Atlantis" None)) = None
  ∧ ∀ data' raw' s,
      structured (call_on data' raw') = Some s →
      is_Some (data' !! toLowerCase (RawArgs.city raw'))
      ∧ ∃ result, Run.completion (call_on data' raw') = Return result
                  ∧ CallToolResult.isError result = None.
Proof.
  apply (miss_has_no_structured_content dummyWeatherData (RawArgs.Build "Atlantis" None)).
  reflexivity.
Defined.

(** The miss is reported for every city that is neither in the table nor
    the name of a member of [Object.prototype]. *)
Lemma unknown_city_reported data raw :
  data !! toLowerCase (RawArgs.city raw) = None →
  toLowerCase (RawArgs.city raw) ∉ object_prototype_keys →
  Run.completion (call_on data raw) =
    Return (CallToolResult.Build (Some true)
      [TextContent [Str ("Sorry, I don't have weather data for "
                         +:+ toLowerCase (RawArgs.city raw) +:+ ".")]]
      None).
Proof. intros H Hk. apply call_on_miss, get_undefined. now split. Qed.

Lemma atlantis :
  Run.completion (get_city_weather (RawArgs.Build "Atlantis" (Some imperial)))
  = Return (CallToolResult.Build (Some true)
      [TextContent [Str "Sorry, I don't have weather data for atlantis."]] None).
Proof.
  apply (unknown_city_reported dummyWeatherData (RawArgs.Build "Atlantis" (Some imperial)));
    [reflexivity|].
  unfold object_prototype_keys. rewrite !not_elem_of_cons.
  repeat split; try discriminate. apply not_elem_of_nil.
Defined.

(** C5, at the city "constructor".  The table has no such city, yet
    [dummyWeatherData["constructor"]] is [Object.prototype.constructor],
    which is truthy: the miss branch is skipped and the handler throws a
    [TypeError] instead of returning the flagged result that explains
    the missing data. *)
Theorem constructor_is_not_reported_missing :
  dummyWeatherData !! "constructor"%string = None
  ∧ ∀ unit,
      Run.completion (get_city_weather (RawArgs.Build "constructor" unit))
      = Throw (TypeError "Cannot read properties of undefined (reading 'toFixed')").
Proof. split; [reflexivity|]. intros unit. reflexivity. Qed.

(** ** Case folding (C8) *)

(** With the fold of ASCII text these are the schema, the handler and
    the call of the tool as defined above. *)
Lemma folded_with_toLowerCase :
  inputSchema_with toLowerCase = inputSchema
  ∧ handler_with toLowerCase = handler
  ∧ call_with toLowerCase = call_on.
Proof. repeat split. Qed.

(** C8.  For every input city string, the schema folds the city before
    the handler runs; on what the schema hands it the handler behaves
    as a handler that folds nothing (its own [city.toLowerCase()] at
    line 74 finds the city folded already); and a call with any casing
    of a city runs as the call with its folded form.  [fold] is
    [String.prototype.toLowerCase], of which only this is used: folding
    twice is folding once. *)
Theorem casing_is_folded_before_the_handler (fold : string → string) data raw :
  (∀ s, fold (fold s) = fold s) →
  Args.city (inputSchema_with fold raw) = fold (RawArgs.city raw)
  ∧ handler_with fold data (inputSchema_with fold raw)
    = handler_verbatim data (inputSchema_with fold raw)
  ∧ call_with fold data raw
    = call_with fold data (RawArgs.Build (fold (RawArgs.city raw)) (RawArgs.unit raw)).
Proof.
  intros Hfold. split; [reflexivity|]. split.
  - unfold handler_verbatim, handler_with, inputSchema_with.
    cbn [Args.city Args.unit]. now rewrite Hfold.
  - unfold call_with, inputSchema_with. cbn [RawArgs.city RawArgs.unit].
    now rewrite Hfold.
Qed.

(** "PaRiS" in imperial, on the server's table. *)
Lemma paris_in_any_casing :
  let raw := RawArgs.Build "PaRiS" (Some imperial) in
  Args.city (inputSchema raw) = "paris"%string
  ∧ handler dummyWeatherData (inputSchema raw) = handler_verbatim dummyWeatherData (inputSchema raw)
  ∧ get_city_weather raw = get_city_weather (RawArgs.Build "paris" (Some imperial)).
Proof.
  intros raw.
  exact (casing_is_folded_before_the_handler toLowerCase dummyWeatherData raw
           toLowerCase_idempotent).
Defined.

(** ** Session identifiers *)

Lemma uuid_from_length i s : uuid_from i s = true → (i + String.length s = 36)%nat.
Proof.
  revert i. induction s as [|c s IH]; simpl; intros i H.
  - apply Nat.eqb_eq in H. lia.
  - apply andb_prop in H as [_ H]. apply IH in H. lia.
Qed.

Lemma uuid_shaped_length s : uuid_shaped s = true → String.length s = 36%nat.
Proof. intros H. apply uuid_from_length in H. lia. Qed.

Lemma uuid_shaped_truthy s : uuid_shaped s = true → truthy_string s = true.
Proof. intros H. apply uuid_shaped_length in H. now destruct s. Qed.

Lemma uuid_shaped_not_inherited s : uuid_shaped s = true → s ∉ object_prototype_keys.
Proof.
  intros H Hin. apply uuid_shaped_length in H.
  unfold object_prototype_keys in Hin.
  repeat (apply elem_of_cons in Hin as [->|Hin]; [discriminate H|]).
  now apply elem_of_nil in Hin.
Qed.

(** A session identifier of the generator's shape is found in the
    registry exactly when it is a key of it. *)
Lemma get_uuid_shaped {A} (reg : gmap string A) s :
  uuid_shaped s = true →
  get reg s = match reg !! s with Some t => Own t | None => Undefined end.
Proof.
  intros H. unfold get. destruct (reg !! s); [reflexivity|].
  rewrite bool_decide_eq_false_2; [reflexivity|]. now apply uuid_shaped_not_inherited.
Qed.

(** ** The endpoint, branch by branch *)
Section EndpointFacts.
Variable isInitializeRequest : option Json -> bool.
#[local] Abbreviation mcp := (mcp isInitializeRequest).
#[local] Abbreviation step := (step isInitializeRequest).
#[local] Abbreviation run := (run isInitializeRequest).

(** First branch, on a transport of the registry. *)
Lemma mcp_reuse st req sid t :
  Request.mcp_session_id req = Some sid → truthy_string sid = true →
  State.activeTransports st !! sid = Some t →
  mcp st req = (st, Handled t).
Proof.
  intros Hh Hs Ht. unfold Router.mcp, choose, has_session_id, registered.
  rewrite Hh, Hs, (get_own _ _ _ Ht). reflexivity.
Qed.

(** First branch, on a member of [Object.prototype]. *)
Lemma mcp_inherited st req sid :
  Request.mcp_session_id req = Some sid →
  State.activeTransports st !! sid = None → sid ∈ object_prototype_keys →
  mcp st req = (st, Responded (internal_error req)).
Proof.
  intros Hh Hn Hk. unfold Router.mcp, choose, has_session_id, registered.
  rewrite Hh, (get_inherited _ _ Hn Hk).
  assert (truthy_string sid = true) as ->; [|reflexivity].
  unfold object_prototype_keys in Hk.
  repeat (apply elem_of_cons in Hk as [->|Hk]; [reflexivity|]).
  now apply elem_of_nil in Hk.
Qed.

(** Third branch. *)
Lemma mcp_session_not_found st req sid :
  Request.mcp_session_id req = Some sid → truthy_string sid = true →
  get (State.activeTransports st) sid = Undefined →
  mcp st req = (st, Responded (session_not_found req)).
Proof.
  intros Hh Hs Hg. unfold Router.mcp, choose, has_session_id, registered.
  rewrite Hh, Hs, Hg. reflexivity.
Qed.

(** Second branch. *)
Lemma mcp_initialize st req :
  has_session_id req = false → Request.method req = "POST"%string →
  isInitializeRequest (Request.body req) = true →
  mcp st req
  = (State.Build (State.activeTransports st) (State.sessionId st) (S (State.constructed st)),
     Handled (State.constructed st)).
Proof.
  intros Hh Hm Hi. unfold Router.mcp, choose. rewrite Hh, Hi.
  rewrite bool_decide_eq_true_2 by exact Hm. reflexivity.
Qed.

(** Fourth branch. *)
Lemma mcp_bad_request st req :
  has_session_id req = false →
  Request.method req ≠ "POST"%string ∨ isInitializeRequest (Request.body req) = false →
  mcp st req = (st, Responded (bad_request req)).
Proof.
  intros Hh Hor. unfold Router.mcp, choose. rewrite Hh. cbn [andb negb].
  destruct Hor as [Hm|Hi].
  - rewrite bool_decide_eq_false_2 by exact Hm. reflexivity.
  - rewrite Hi, andb_false_r. reflexivity.
Qed.

(** Handling a request leaves the registry and the transports' session
    identifiers as they are, and only ever constructs a transport. *)
Lemma mcp_registry st req :
  State.activeTransports (fst (mcp st req)) = State.activeTransports st
  ∧ State.sessionId (fst (mcp st req)) = State.sessionId st
  ∧ (State.constructed st ≤ State.constructed (fst (mcp st req)))%nat.
Proof.
  unfold Router.mcp, choose.
  repeat (match goal with |- context [if ?b then _ else _] => destruct b end);
    cbn; repeat split; lia.
Qed.

(** A request goes to a transport of the registry or to the one just
    constructed. *)
Lemma mcp_handled st req t :
  snd (mcp st req) = Handled t →
  (∃ k, State.activeTransports st !! k = Some t) ∨ t = State.constructed st.
Proof.
  unfold Router.mcp, choose, registered.
  destruct (has_session_id req && _) eqn:H1.
  - destruct (Request.mcp_session_id req) as [sid|]; [|discriminate].
    unfold get. destruct (State.activeTransports st !! sid) as [t'|] eqn:Ht.
    + cbn. intros [= ->]. left. now exists sid.
    + case_bool_decide; discriminate.
  - destruct (negb _ && _ && _).
    + cbn. intros [= ->]. now right.
    + destruct (has_session_id req && negb _); discriminate.
Qed.

(** *** Reachable states are consistent *)
Lemma consistent_initial : consistent initial.
Proof. split; intros ? ?; cbn; rewrite lookup_empty; discriminate. Qed.

Lemma onclose_lookup reg sid k t :
  onclose reg sid !! k = Some t → reg !! k = Some t.
Proof.
  unfold onclose. destruct sid as [sid|]; [|trivial].
  destruct (truthy_string sid && truthy (get reg sid)); [|trivial].
  intros H. apply lookup_delete_Some in H. tauto.
Qed.

Lemma consistent_step st ev : consistent st → consistent (fst (step st ev)).
Proof.
  intros [I1 I2]. destruct ev as [req|t u|t]; cbn.
  - destruct (Router.mcp isInitializeRequest st req) as [st' out] eqn:E.
    pose proof (mcp_registry st req) as (Hr & Hs & Hc). rewrite E in Hr, Hs, Hc.
    cbn in *. split.
    + intros k t. rewrite Hr, Hs. apply I1.
    + intros t k. rewrite Hs. intros H. destruct (I2 _ _ H). split; [assumption|lia].
  - destruct (bool_decide (t < State.constructed st)%nat) eqn:Hc; [|now split].
    destruct (bool_decide (State.sessionId st !! t = None)) eqn:Hn; [|now split].
    apply bool_decide_eq_true_1 in Hc, Hn. cbn. unfold onsessioninitialized. split.
    + intros k t'. cbn. rewrite lookup_insert_Some. intros [[<- <-]|[Hk Ht']].
      * apply lookup_insert_eq.
      * rewrite lookup_insert_ne; [now apply I1|].
        intros <-. apply I1 in Ht'. congruence.
    + intros t' k H. cbn in H |- *. apply lookup_insert_Some in H as [[<- <-]|[_ Ht']].
      * split; [apply uuid_ok|exact Hc].
      * now apply I2.
  - split.
    + intros k t' H. apply onclose_lookup in H. now apply I1.
    + apply I2.
Qed.

Lemma run_invariant (P : State.t → Prop) events :
  ∀ st, (∀ st ev, ev ∈ events → P st → P (fst (step st ev))) → P st → P (run st events).
Proof.
  induction events as [|ev rest IH]; intros st Hstep HP; [exact HP|].
  cbn. apply IH.
  - intros st' ev' Hin. apply Hstep. now right.
  - apply Hstep; [now left|exact HP].
Qed.

Lemma consistent_run st events : consistent st → consistent (run st events).
Proof. apply run_invariant. intros ? ? _. apply consistent_step. Qed.

End EndpointFacts.

(** ** Routing (C1, C2) *)

(** A session identifier that is not empty, not in the registry and not
    the name of a member of [Object.prototype] is answered with 404,
    code -32001, and the state stays as it is. *)
Lemma unknown_session_id_not_found isInitializeRequest st req sid :
  Request.mcp_session_id req = Some sid →
  sid ≠ ""%string → sid ∉ object_prototype_keys →
  State.activeTransports st !! sid = None →
  mcp isInitializeRequest st req
  = (st, Responded (Response.Build 404 (-32001) "Session not found. Please re-initialize."
                      (id_or_null (Request.body req)))).
Proof.
  intros Hh Hne Hk Hn. apply (mcp_session_not_found _ _ _ sid Hh).
  - now destruct sid.
  - apply get_undefined. now split.
Qed.

(** C1, at the session identifier "constructor".  No session has that
    identifier, yet [activeTransports["constructor"]] is
    [Object.prototype.constructor], which is truthy: the first branch
    takes it for the transport, [transport.handleRequest] is not a
    function, and the request ends in 500 with code -32000 instead of
    404 with code -32001.  No session is created. *)
Theorem inherited_session_id_is_internal_error isInitializeRequest method body :
  State.activeTransports initial !! "constructor"%string = None
  ∧ mcp isInitializeRequest initial (Request.Build method (Some "constructor"%string) body)
    = (initial, Responded (Response.Build 500 (-32000) "Internal Server Error"
                             (id_or_null body))).
Proof. split; reflexivity. Qed.

(** An empty header value counts as no session identifier: with an
    initialization request in the body a transport is constructed. *)
Example empty_session_id_initializes :
  mcp (fun _ => true) initial (Request.Build "POST" (Some ""%string) None)
  = (State.Build ∅ ∅ 1, Handled 0%nat).
Proof. reflexivity. Qed.

(** A request bearing an identifier nobody has: 404, code -32001. *)
Lemma stale_session_id_not_found :
  mcp (fun _ => true) initial
    (Request.Build "POST" (Some "123e4567-e89b-42d3-a456-426614174000"%string)
       (Some (JObject [("id", JString "a")]%string)))
  = (initial, Responded (Response.Build 404 (-32001) "Session not found. Please re-initialize."
                           (JString "a"))).
Proof.
  apply (unknown_session_id_not_found (fun _ => true) initial
           (Request.Build "POST" (Some "123e4567-e89b-42d3-a456-426614174000"%string)
              (Some (JObject [("id", JString "a")]%string)))
           "123e4567-e89b-42d3-a456-426614174000");
    [reflexivity | discriminate | | reflexivity].
  now apply uuid_shaped_not_inherited.
Defined.

(** A request bearing the identifier of a session goes to its transport. *)
Lemma registered_session_is_reused :
  let sid := "123e4567-e89b-42d3-a456-426614174000"%string in
  let st := State.Build {[ sid := 0%nat ]} {[ 0%nat := sid ]} 1 in
  mcp (fun _ => true) st (Request.Build "GET" (Some sid) None) = (st, Handled 0%nat).
Proof.
  intros sid st.
  exact (mcp_reuse (fun _ => true) st (Request.Build "GET" (Some sid) None) sid 0%nat
           eq_refl eq_refl eq_refl).
Defined.

(** The first request of a client: a transport is constructed for it. *)
Lemma first_request_constructs_transport :
  mcp (fun _ => true) initial (Request.Build "POST" None (Some (JObject [])))
  = (State.Build ∅ ∅ 1, Handled 0%nat).
Proof.
  exact (mcp_initialize (fun _ => true) initial
           (Request.Build "POST" None (Some (JObject []))) eq_refl eq_refl eq_refl).
Defined.

(** C2.  A request without a session identifier whose body is not an
    initialization request is answered with 400, code -32600, and the
    state of the server, the registry with it, stays as it is. *)
Theorem no_session_id_not_initialize_is_bad_request isInitializeRequest st req :
  Request.mcp_session_id req = None →
  isInitializeRequest (Request.body req) = false →
  mcp isInitializeRequest st req
  = (st, Responded (Response.Build 400 (-32600)
                      "Bad Request: Session ID required or invalid initialization."
                      (id_or_null (Request.body req))))
  ∧ State.activeTransports (fst (step isInitializeRequest st (Req req)))
    = State.activeTransports st.
Proof.
  intros Hh Hi.
  assert (E : mcp isInitializeRequest st req = (st, Responded (bad_request req))).
  { apply mcp_bad_request; [|now right]. unfold has_session_id. now rewrite Hh. }
  split; [exact E|]. cbn. now rewrite E.
Qed.

(** A tool call sent without a session identifier, one session being
    registered: 400, code -32600, and the registry keeps its one key. *)
Lemma tools_call_without_session_is_bad_request :
  let req := Request.Build "POST" None
               (Some (JObject [("jsonrpc", JString "2.0"); ("id", JNumber (of_Z 7));
                               ("method", JString "tools/call")]%string)) in
  let st := State.Build {[ "123e4567-e89b-42d3-a456-426614174000"%string := 0%nat ]}
                        {[ 0%nat := "123e4567-e89b-42d3-a456-426614174000"%string ]} 1 in
  mcp (fun _ => false) st req
  = (st, Responded (Response.Build 400 (-32600)
                      "Bad Request: Session ID required or invalid initialization."
                      (JNumber (of_Z 7))))
  ∧ State.activeTransports (fst (step (fun _ => false) st (Req req)))
    = State.activeTransports st.
Proof.
  intros req st.
  exact (no_session_id_not_initialize_is_bad_request (fun _ => false) st req eq_refl eq_refl).
Defined.

(** ** Registration (C7) *)

(** C7, as stated, fails: with [id] already bound, the insert of the
    specification fails with [DuplicateSessionError], and
    [onsessioninitialized] stores the new transport over the old one. *)
Lemma onsessioninitialized_overwrites :
  let id := MkUuid "123e4567-e89b-42d3-a456-426614174000" eq_refl in
  let reg : gmap string TransportRef := {[ uuid_string id := 0%nat ]} in
  reg !! uuid_string id = Some 0%nat
  ∧ spec_insert reg (uuid_string id) 1%nat = DuplicateSessionError
  ∧ onsessioninitialized reg id 1%nat !! uuid_string id = Some 1%nat.
Proof. repeat split. Qed.

(** C7, amended.  [onsessioninitialized] always stores the binding and
    leaves the other keys alone; on an identifier that is absent this
    is the insert of the specification, and on one that is present the
    old binding is overwritten where the specification's insert fails. *)
Theorem onsessioninitialized_stores reg id transport :
  onsessioninitialized reg id transport !! uuid_string id = Some transport
  ∧ (∀ k, k ≠ uuid_string id →
          onsessioninitialized reg id transport !! k = reg !! k)
  ∧ match reg !! uuid_string id with
    | None => spec_insert reg (uuid_string id) transport
              = Stored (onsessioninitialized reg id transport)
    | Some _ => spec_insert reg (uuid_string id) transport = DuplicateSessionError
    end.
Proof.
  unfold onsessioninitialized, spec_insert. split; [apply lookup_insert_eq|].
  split; [intros k Hk; now apply lookup_insert_ne|].
  now destruct (reg !! uuid_string id).
Qed.

(** ** Closing a session (C3) *)
Section Closing.
Variable isInitializeRequest : option Json -> bool.
#[local] Abbreviation mcp' := (mcp isInitializeRequest).
#[local] Abbreviation step' := (step isInitializeRequest).
#[local] Abbreviation run' := (run isInitializeRequest).

(** [onclose] on the identifier of a session removes its key. *)
Lemma onclose_removes reg sid :
  uuid_shaped sid = true → onclose reg (Some sid) !! sid = None.
Proof.
  intros H. unfold onclose. rewrite (uuid_shaped_truthy _ H), (get_uuid_shaped _ _ H).
  destruct (reg !! sid) eqn:E; cbn; [apply lookup_delete_eq|exact E].
Qed.

(** [onclose] with nothing to remove leaves the registry as it is. *)
Lemma onclose_absent reg sid :
  uuid_shaped sid = true → reg !! sid = None → onclose reg (Some sid) = reg.
Proof.
  intros H E. unfold onclose. rewrite (get_uuid_shaped _ _ H), E.
  now rewrite andb_false_r.
Qed.

(** A key that is absent stays absent as long as the generator does not
    give it out. *)
Lemma absent_stays_absent sid events st :
  not_issued_in sid events →
  State.activeTransports st !! sid = None →
  State.activeTransports (run' st events) !! sid = None.
Proof.
  intros Hfresh. apply (run_invariant isInitializeRequest
    (fun st => State.activeTransports st !! sid = None)).
  intros st' ev Hin Hst'. destruct ev as [req|t u|t]; cbn.
  - destruct (Router.mcp isInitializeRequest st' req) as [st'' out] eqn:E.
    pose proof (mcp_registry isInitializeRequest st' req) as (Hr & _). rewrite E in Hr.
    cbn in *. now rewrite Hr.
  - destruct (bool_decide _ && bool_decide _); [|exact Hst']. cbn.
    unfold onsessioninitialized. rewrite lookup_insert_ne; [exact Hst'|].
    apply (Hfresh t u Hin).
  - destruct (onclose _ _ !! sid) as [t'|] eqn:E; [|reflexivity].
    apply onclose_lookup in E. congruence.
Qed.

(** A retired transport stays retired. *)
Lemma retired_step t st ev : retired t st → retired t (fst (step' st ev)).
Proof.
  intros (Hs & Hc & Hr). destruct ev as [req|t' u|t']; cbn.
  - destruct (Router.mcp isInitializeRequest st req) as [st' out] eqn:E.
    pose proof (mcp_registry isInitializeRequest st req) as (H1 & H2 & H3).
    rewrite E in H1, H2, H3. cbn in *. unfold retired. rewrite H1, H2.
    repeat split; [exact Hs|lia|exact Hr].
  - destruct (bool_decide (t' < _)%nat) eqn:B1; [|now repeat split].
    destruct (bool_decide (State.sessionId st !! t' = None)) eqn:B2; [|now repeat split].
    apply bool_decide_eq_true_1 in B2. cbn.
    assert (t ≠ t') by (intros ->; rewrite B2 in Hs; now destruct Hs).
    unfold retired, onsessioninitialized. cbn. repeat split.
    + now rewrite lookup_insert_ne.
    + exact Hc.
    + intros k Hk. apply lookup_insert_Some in Hk as [[_ ?]|[_ Hk]]; [congruence|].
      now apply (Hr k).
  - unfold retired. cbn. repeat split; [exact Hs|exact Hc|].
    intros k Hk. apply onclose_lookup in Hk. now apply (Hr k).
Qed.

Lemma retired_not_handled t st req : retired t st → snd (mcp' st req) ≠ Handled t.
Proof.
  intros (_ & Hc & Hr) H. apply mcp_handled in H as [[k Hk]|Heq]; [now apply (Hr k)|lia].
Qed.

End Closing.

(** C3.  In a state the server can reach, let a transport with session
    identifier [sid] close.  Then [sid] is no key of the registry; a
    second close signal changes nothing; from then on, as long as the
    generator does not give [sid] out again, every request bearing [sid]
    is answered with 404, code -32001, and changes nothing; and
    whatever happens later, no request is passed to that transport. *)
Theorem closed_session_is_not_served isInitializeRequest history t sid :
  let st := run isInitializeRequest initial history in
  let closed := fst (step isInitializeRequest st (Closed t)) in
  State.sessionId st !! t = Some sid →
  State.activeTransports closed !! sid = None
  ∧ fst (step isInitializeRequest closed (Closed t)) = closed
  ∧ (∀ later req,
       not_issued_in sid later →
       Request.mcp_session_id req = Some sid →
       mcp isInitializeRequest (run isInitializeRequest closed later) req
       = (run isInitializeRequest closed later,
          Responded (Response.Build 404 (-32001) "Session not found. Please re-initialize."
                       (id_or_null (Request.body req)))))
  ∧ (∀ later req,
       snd (mcp isInitializeRequest (run isInitializeRequest closed later) req)
       ≠ Handled t).
Proof.
  intros st closed Hsid.
  assert (Hst : consistent st) by apply consistent_run, consistent_initial.
  destruct Hst as [I1 I2]. destruct (I2 _ _ Hsid) as [Hu Hc].
  assert (Hgone : State.activeTransports closed !! sid = None).
  { subst closed. cbn. rewrite Hsid. now apply onclose_removes. }
  split; [exact Hgone|]. split; [|split].
  - subst closed. cbn. unfold with_registry. cbn. rewrite Hsid.
    now rewrite (onclose_absent (onclose (State.activeTransports st) (Some sid)) sid Hu
                   (onclose_removes _ _ Hu)).
  - intros later req Hfresh Hreq.
    apply (mcp_session_not_found _ _ _ sid Hreq (uuid_shaped_truthy _ Hu)).
    rewrite (get_uuid_shaped _ _ Hu).
    now rewrite (absent_stays_absent isInitializeRequest sid later closed Hfresh Hgone).
  - intros later req. apply retired_not_handled.
    apply (run_invariant isInitializeRequest (retired t)).
    + intros st' ev _. apply retired_step.
    + subst closed. unfold retired. cbn. rewrite Hsid. repeat split; [eauto|exact Hc|].
      intros k Hk. pose proof Hk as Hk'. apply onclose_lookup, I1 in Hk'.
      assert (k = sid) by congruence. subst k.
      rewrite onclose_removes in Hk; [discriminate|exact Hu].
Qed.

(** A client initializes, calls a tool, and its transport closes. *)
Lemma a_closed_session_is_not_served :
  let isInitializeRequest := fun body : option Json =>
    match body with
    | Some (JObject fields) =>
        match member "method" fields with
        | Some (JString name) => String.eqb name "initialize"
        | _ => false
        end
    | _ => false
    end in
  let sid := "123e4567-e89b-42d3-a456-426614174000"%string in
  let history :=
    [ Req (Request.Build "POST" None
             (Some (JObject [("id", JNumber (of_Z 1)); ("method", JString "initialize")]%string)));
      SessionInitialized 0%nat (MkUuid sid eq_refl);
      Req (Request.Build "POST" (Some sid)
             (Some (JObject [("id", JNumber (of_Z 2)); ("method", JString "tools/call")]%string))) ] in
  let st := run isInitializeRequest initial history in
  let closed := fst (step isInitializeRequest st (Closed 0%nat)) in
  State.activeTransports st !! sid = Some 0%nat
  ∧ State.activeTransports closed !! sid = None
  ∧ fst (step isInitializeRequest closed (Closed 0%nat)) = closed
  ∧ (∀ later req,
       not_issued_in sid later →
       Request.mcp_session_id req = Some sid →
       mcp isInitializeRequest (run isInitializeRequest closed later) req
       = (run isInitializeRequest closed later,
          Responded (Response.Build 404 (-32001) "Session not found. Please re-initialize."
                       (id_or_null (Request.body req)))))
  ∧ (∀ later req,
       snd (mcp isInitializeRequest (run isInitializeRequest closed later) req)
       ≠ Handled 0%nat).
Proof.
  intros isInitializeRequest sid history st closed.
  split; [reflexivity|].
  apply (closed_session_is_not_served isInitializeRequest history 0%nat sid).
  reflexivity.
Defined.

(** * Further properties of the endpoint *)

(** ** What the endpoint does to the state *)

(** A request makes the endpoint construct a transport (line 147) exactly
    when it has no session identifier, its method is POST and its body
    is an initialization request, and the request is then handed to
    that new transport; no other request constructs one. *)
Theorem transport_constructed_only_on_initialize isInitializeRequest st req :
  (has_session_id req = false ∧ Request.method req = "POST"%string
     ∧ isInitializeRequest (Request.body req) = true →
   State.constructed (fst (mcp isInitializeRequest st req)) = S (State.constructed st)
   ∧ snd (mcp isInitializeRequest st req) = Handled (State.constructed st))
  ∧ (¬ (has_session_id req = false ∧ Request.method req = "POST"%string
         ∧ isInitializeRequest (Request.body req) = true) →
     State.constructed (fst (mcp isInitializeRequest st req)) = State.constructed st).
Proof.
  split.
  - intros (Hh & Hm & Hi). unfold mcp, choose. rewrite Hh, Hi.
    rewrite bool_decide_eq_true_2 by exact Hm. split; reflexivity.
  - intros Hn. unfold mcp, choose.
    destruct (has_session_id req && truthy (registered st req)); [reflexivity|].
    destruct (has_session_id req) eqn:Hh; cbn [negb andb].
    + now destruct (negb (truthy (registered st req))).
    + case_bool_decide as Hm; cbn [andb]; [|reflexivity].
      destruct (isInitializeRequest (Request.body req)) eqn:Hi; [|reflexivity].
      exfalso. apply Hn. now repeat split.
Qed.

(** An answer of the endpoint itself is one of three JSON-RPC errors, it
    carries the request's [id] (or [null]), and it leaves the state as
    it is. *)
Theorem endpoint_answers isInitializeRequest st req response :
  snd (mcp isInitializeRequest st req) = Responded response →
  fst (mcp isInitializeRequest st req) = st
  ∧ Response.id response = id_or_null (Request.body req)
  ∧ ((Response.status response, Response.code response, Response.message response)
     = (404, -32001, "Session not found. Please re-initialize."%string)
     ∨ (Response.status response, Response.code response, Response.message response)
       = (400, -32600, "Bad Request: Session ID required or invalid initialization."%string)
     ∨ (Response.status response, Response.code response, Response.message response)
       = (500, -32000, "Internal Server Error"%string)).
Proof.
  unfold mcp, choose.
  destruct (has_session_id req && truthy (registered st req)).
  - destruct (registered st req); cbn; intros [= <-]; repeat split; auto.
  - destruct (negb (has_session_id req) && _ && _); [discriminate|].
    destruct (has_session_id req && negb _); cbn; intros [= <-]; repeat split; auto.
Qed.

(** A DELETE with no header, whatever its body: 400, nothing changed. *)
Lemma delete_without_session_answer :
  let req := Request.Build "DELETE" None (Some (JObject [("id", JString "x")]%string)) in
  let response := Response.Build 400 (-32600)
                    "Bad Request: Session ID required or invalid initialization."
                    (JString "x") in
  fst (mcp (fun _ => true) initial req) = initial
  ∧ Response.id response = id_or_null (Request.body req)
  ∧ ((Response.status response, Response.code response, Response.message response)
     = (404, -32001, "Session not found. Please re-initialize."%string)
     ∨ (Response.status response, Response.code response, Response.message response)
       = (400, -32600, "Bad Request: Session ID required or invalid initialization."%string)
     ∨ (Response.status response, Response.code response, Response.message response)
       = (500, -32000, "Internal Server Error"%string)).
Proof.
  intros req response.
  exact (endpoint_answers (fun _ => true) initial req response eq_refl).
Defined.

(** ** The registry of a running server *)

(** In every state the server can reach, a key of the registry has the
    shape of a generated identifier and is the [sessionId] of the
    transport registered under it, a transport that was constructed; so
    no transport is registered under two identifiers. *)
Theorem registry_binds_transport_to_its_identifier isInitializeRequest history :
  let st := run isInitializeRequest initial history in
  (∀ k t, State.activeTransports st !! k = Some t →
     uuid_shaped k = true ∧ State.sessionId st !! t = Some k
     ∧ (t < State.constructed st)%nat)
  ∧ (∀ k1 k2 t, State.activeTransports st !! k1 = Some t →
       State.activeTransports st !! k2 = Some t → k1 = k2).
Proof.
  intros st.
  destruct (consistent_run isInitializeRequest initial history consistent_initial)
    as [I1 I2].
  fold st in I1, I2. split.
  - intros k t Hk. pose proof (I1 _ _ Hk) as Hs. destruct (I2 _ _ Hs). now repeat split.
  - intros k1 k2 t H1 H2. apply I1 in H1, H2. congruence.
Qed.

(** In every state the server can reach, a request that bears a session
    identifier is handed to no transport but the one whose [sessionId]
    it bears, the one registered under it. *)
Theorem request_reaches_only_its_session isInitializeRequest history req sid t :
  let st := run isInitializeRequest initial history in
  Request.mcp_session_id req = Some sid →
  sid ≠ ""%string →
  snd (mcp isInitializeRequest st req) = Handled t →
  State.sessionId st !! t = Some sid
  ∧ State.activeTransports st !! sid = Some t.
Proof.
  intros st Hh Hne.
  destruct (consistent_run isInitializeRequest initial history consistent_initial)
    as [I1 _]. fold st in I1.
  assert (Ht : truthy_string sid = true) by now destruct sid.
  unfold mcp, choose, has_session_id, registered. rewrite Hh, Ht. cbn [andb negb].
  unfold get. destruct (State.activeTransports st !! sid) as [t'|] eqn:E.
  - cbn. intros [= Heq]. subst t'. split; [now apply I1|reflexivity].
  - case_bool_decide; cbn; discriminate.
Qed.

(** A session after its first two requests: the second one reaches the
    transport constructed for the first. *)
Lemma second_request_reaches_its_session :
  let sid := "123e4567-e89b-42d3-a456-426614174000"%string in
  let history :=
    [ Req (Request.Build "POST" None None); SessionInitialized 0%nat (MkUuid sid eq_refl) ] in
  let st := run (fun _ => true) initial history in
  State.sessionId st !! 0%nat = Some sid
  ∧ State.activeTransports st !! sid = Some 0%nat.
Proof.
  intros sid history st.
  apply (request_reaches_only_its_session (fun _ => true) history
           (Request.Build "GET" (Some sid) None) sid 0%nat);
    [reflexivity | discriminate | reflexivity].
Defined.

(** In every state the server can reach, the endpoint answers 500 with
    code -32000 exactly for the requests whose session identifier is
    the name of a member of [Object.prototype]. *)
Theorem internal_error_exactly_for_inherited_names isInitializeRequest history req :
  let st := run isInitializeRequest initial history in
  snd (mcp isInitializeRequest st req) = Responded (internal_error req)
  ↔ ∃ sid, Request.mcp_session_id req = Some sid ∧ sid ∈ object_prototype_keys.
Proof.
  intros st.
  destruct (consistent_run isInitializeRequest initial history consistent_initial)
    as [I1 I2]. fold st in I1, I2.
  split.
  - unfold mcp, choose, registered, has_session_id, get.
    unfold session_not_found, bad_request, internal_error.
    destruct (Request.mcp_session_id req) as [sid|]; cbn [andb negb].
    + destruct (State.activeTransports st !! sid) as [t|];
        [|case_bool_decide as Hk; [intros _; now exists sid|]];
        destruct (truthy_string sid),
                 (bool_decide (Request.method req = "POST"%string)),
                 (isInitializeRequest (Request.body req));
        cbn; intros H; inversion H.
    + destruct (bool_decide (Request.method req = "POST"%string)),
               (isInitializeRequest (Request.body req));
        cbn; intros H; inversion H.
  - intros (sid & Hh & Hk).
    rewrite (mcp_inherited isInitializeRequest st req sid Hh); [reflexivity| |exact Hk].
    destruct (State.activeTransports st !! sid) as [t|] eqn:E; [|reflexivity].
    exfalso. apply I1, I2 in E as [Hu _].
    now apply (uuid_shaped_not_inherited sid Hu).
Qed.

(** ** Registering and closing *)

(** Closing a transport leaves every key other than its own session
    identifier as it is, and touches nothing else of the state. *)
Theorem close_leaves_other_sessions isInitializeRequest st t k :
  State.sessionId st !! t ≠ Some k →
  State.activeTransports (fst (step isInitializeRequest st (Closed t))) !! k
  = State.activeTransports st !! k
  ∧ State.sessionId (fst (step isInitializeRequest st (Closed t))) = State.sessionId st
  ∧ State.constructed (fst (step isInitializeRequest st (Closed t))) = State.constructed st.
Proof.
  intros Hk. cbn. repeat split. unfold onclose.
  destruct (State.sessionId st !! t) as [sid|]; [|reflexivity].
  destruct (truthy_string sid && truthy (get (State.activeTransports st) sid));
    [|reflexivity].
  apply lookup_delete_ne. congruence.
Qed.

(** Two sessions, the first one closes: the second keeps its key. *)
Lemma closing_one_of_two_sessions :
  let a := "123e4567-e89b-42d3-a456-426614174000"%string in
  let b := "123e4567-e89b-42d3-a456-426614174001"%string in
  let st := State.Build {[ a := 0%nat; b := 1%nat ]} {[ 0%nat := a; 1%nat := b ]} 2 in
  State.activeTransports (fst (step (fun _ => true) st (Closed 0%nat))) !! b = Some 1%nat
  ∧ State.sessionId (fst (step (fun _ => true) st (Closed 0%nat))) = State.sessionId st
  ∧ State.constructed (fst (step (fun _ => true) st (Closed 0%nat))) = 2%nat.
Proof.
  intros a b st.
  apply (close_leaves_other_sessions (fun _ => true) st 0%nat b). discriminate.
Defined.

(** Registering an identifier that is not in use and closing its
    transport gives the registry back as it was. *)
Theorem register_then_close_restores isInitializeRequest st t newSessionId :
  (t < State.constructed st)%nat →
  State.sessionId st !! t = None →
  State.activeTransports st !! uuid_string newSessionId = None →
  State.activeTransports
    (run isInitializeRequest st [SessionInitialized t newSessionId; Closed t])
  = State.activeTransports st.
Proof.
  intros Hc Hs Hk. cbn.
  rewrite (bool_decide_eq_true_2 _ Hc), (bool_decide_eq_true_2 _ Hs). cbn.
  rewrite lookup_insert_eq. unfold onclose, onsessioninitialized.
  rewrite (uuid_shaped_truthy _ (uuid_ok newSessionId)).
  rewrite (get_own _ _ t) by apply lookup_insert_eq. cbn.
  now apply delete_insert_id.
Qed.

(** One client comes and goes: the registry is empty again. *)
Lemma one_session_comes_and_goes :
  State.activeTransports
    (run (fun _ => true) (State.Build ∅ ∅ 1)
       [SessionInitialized 0%nat (MkUuid "123e4567-e89b-42d3-a456-426614174000" eq_refl);
        Closed 0%nat])
  = ∅.
Proof.
  apply (register_then_close_restores (fun _ => true) (State.Build ∅ ∅ 1) 0%nat
           (MkUuid "123e4567-e89b-42d3-a456-426614174000" eq_refl));
    [cbn; lia | reflexivity | reflexivity].
Defined.

(** A session that has just been registered under an identifier no
    transport had before is served, request after request, until its
    transport closes: whatever else happens meanwhile (other sessions
    start and close, requests of any kind arrive), as long as the
    generator does not give the identifier out again. *)
Theorem session_is_served_until_closed isInitializeRequest st t newSessionId later req :
  (t < State.constructed st)%nat →
  State.sessionId st !! t = None →
  (∀ t', State.sessionId st !! t' ≠ Some (uuid_string newSessionId)) →
  not_issued_in (uuid_string newSessionId) later →
  Closed t ∉ later →
  Request.mcp_session_id req = Some (uuid_string newSessionId) →
  let st1 := fst (step isInitializeRequest st (SessionInitialized t newSessionId)) in
  mcp isInitializeRequest (run isInitializeRequest st1 later) req
  = (run isInitializeRequest st1 later, Handled t).
Proof.
  intros Hc Hs Hfresh Hissued Hclosed Hreq st1.
  set (sid := uuid_string newSessionId) in *.
  set (J := fun s : State.t =>
              State.activeTransports s !! sid = Some t
              ∧ ∀ t', State.sessionId s !! t' = Some sid → t' = t).
  assert (HJ : J (run isInitializeRequest st1 later)).
  { apply (run_invariant isInitializeRequest J).
    - intros s ev Hin [Hk Hown]. destruct ev as [r|t' u|t']; cbn.
      + destruct (mcp isInitializeRequest s r) as [s' out] eqn:E.
        pose proof (mcp_registry isInitializeRequest s r) as (Hr & Hsi & _).
        rewrite E in Hr, Hsi. cbn in *. unfold J. now rewrite Hr, Hsi.
      + destruct (bool_decide (t' < _)%nat && bool_decide _); [|now split].
        assert (uuid_string u ≠ sid) as Hu by apply (Hissued t' u Hin).
        unfold J, onsessioninitialized. cbn. split.
        * now rewrite lookup_insert_ne.
        * intros t'' H. apply lookup_insert_Some in H as [[_ ?]|[_ H]]; [congruence|].
          now apply Hown.
      + unfold J. cbn. split; [|exact Hown].
        unfold onclose. destruct (State.sessionId s !! t') as [k|] eqn:Ek; [|exact Hk].
        destruct (truthy_string k && truthy (get (State.activeTransports s) k)); [|exact Hk].
        rewrite lookup_delete_ne; [exact Hk|].
        intros ->. apply Hown in Ek. subst t'. now apply Hclosed.
    - subst st1. cbn.
      rewrite (bool_decide_eq_true_2 _ Hc), (bool_decide_eq_true_2 _ Hs). cbn.
      unfold J, onsessioninitialized. cbn. split; [apply lookup_insert_eq|].
      intros t' H. apply lookup_insert_Some in H as [[? _]|[_ H]]; [congruence|].
      now apply Hfresh in H. }
  destruct HJ as [Hk _].
  apply (mcp_reuse isInitializeRequest _ req sid t Hreq); [|exact Hk].
  apply uuid_shaped_truthy, uuid_ok.
Qed.

(** A session keeps being served while another one starts and closes. *)
Lemma session_outlives_another :
  let a := MkUuid "123e4567-e89b-42d3-a456-426614174000" eq_refl in
  let b := MkUuid "123e4567-e89b-42d3-a456-426614174001" eq_refl in
  let st := State.Build ∅ ∅ 2 in
  let later := [ SessionInitialized 1%nat b;
                 Req (Request.Build "GET" (Some (uuid_string b)) None);
                 Closed 1%nat ] in
  let req := Request.Build "POST" (Some (uuid_string a)) None in
  let st1 := fst (step (fun _ => false) st (SessionInitialized 0%nat a)) in
  mcp (fun _ => false) (run (fun _ => false) st1 later) req
  = (run (fun _ => false) st1 later, Handled 0%nat).
Proof.
  intros a b st later req.
  apply (session_is_served_until_closed (fun _ => false) st 0%nat a later req).
  - cbn. lia.
  - reflexivity.
  - intros t'. cbn. rewrite lookup_empty. discriminate.
  - intros t' u Hin. unfold later in Hin.
    rewrite !elem_of_cons in Hin. destruct Hin as [H|[H|[H|H]]];
      [injection H as _ ->; discriminate | discriminate | discriminate
      | now apply elem_of_nil in H].
  - unfold later. rewrite !not_elem_of_cons.
    repeat split; try discriminate. apply not_elem_of_nil.
  - reflexivity.
Defined.

(** ** New sessions and repeated identifiers *)

(** In every state the server can reach, the transport constructed for
    an initialization request is a new one: it is registered under no
    identifier and has no [sessionId] yet, so an initialization request
    is never passed to the transport of an existing session. *)
Theorem initialization_gets_a_new_transport isInitializeRequest history req :
  let st := run isInitializeRequest initial history in
  has_session_id req = false →
  Request.method req = "POST"%string →
  isInitializeRequest (Request.body req) = true →
  ∃ t, snd (mcp isInitializeRequest st req) = Handled t
     ∧ State.sessionId st !! t = None
     ∧ ∀ k, State.activeTransports st !! k ≠ Some t.
Proof.
  intros st Hh Hm Hi.
  destruct (consistent_run isInitializeRequest initial history consistent_initial)
    as [I1 I2]. fold st in I1, I2. clearbody st.
  exists (State.constructed st).
  rewrite (mcp_initialize isInitializeRequest st req Hh Hm Hi). cbn.
  assert (Hn : State.sessionId st !! State.constructed st = None).
  { destruct (State.sessionId st !! State.constructed st) as [k|] eqn:E; [|reflexivity].
    apply I2 in E as [_ E]. lia. }
  repeat split; [exact Hn|]. intros k Hk. apply I1 in Hk.
  discriminate (eq_trans (eq_sym Hk) Hn).
Qed.

(** A second client initializes while a first session is open. *)
Lemma second_client_gets_a_new_transport :
  let history :=
    [ Req (Request.Build "POST" None None);
      SessionInitialized 0%nat (MkUuid "123e4567-e89b-42d3-a456-426614174000" eq_refl) ] in
  let st := run (fun _ => true) initial history in
  ∃ t, snd (mcp (fun _ => true) st (Request.Build "POST" None None)) = Handled t
     ∧ State.sessionId st !! t = None
     ∧ ∀ k, State.activeTransports st !! k ≠ Some t.
Proof.
  intros history st.
  apply (initialization_gets_a_new_transport (fun _ => true) history
           (Request.Build "POST" None None)); reflexivity.
Defined.

(** Should the generator repeat an identifier that is registered, the
    new transport takes the key over: requests bearing the identifier
    go to the new transport, and when the old transport closes the key
    is removed although the new transport is open. *)
Theorem repeated_identifier_is_taken_over isInitializeRequest st old new newSessionId req :
  State.activeTransports st !! uuid_string newSessionId = Some old →
  State.sessionId st !! old = Some (uuid_string newSessionId) →
  (new < State.constructed st)%nat →
  State.sessionId st !! new = None →
  Request.mcp_session_id req = Some (uuid_string newSessionId) →
  let st1 := fst (step isInitializeRequest st (SessionInitialized new newSessionId)) in
  mcp isInitializeRequest st1 req = (st1, Handled new)
  ∧ State.activeTransports (fst (step isInitializeRequest st1 (Closed old)))
      !! uuid_string newSessionId = None.
Proof.
  intros Hk Hold Hc Hnew Hreq st1.
  assert (Hne : new ≠ old).
  { intros ->. discriminate (eq_trans (eq_sym Hold) Hnew). }
  assert (E : st1 = State.Build
                (onsessioninitialized (State.activeTransports st) newSessionId new)
                (<[new := uuid_string newSessionId]> (State.sessionId st))
                (State.constructed st)).
  { subst st1. cbn.
    now rewrite (bool_decide_eq_true_2 _ Hc), (bool_decide_eq_true_2 _ Hnew). }
  pose proof (uuid_ok newSessionId) as Hu. split.
  - apply (mcp_reuse isInitializeRequest st1 req (uuid_string newSessionId) new Hreq).
    + now apply uuid_shaped_truthy.
    + rewrite E. cbn. apply lookup_insert_eq.
  - rewrite E. cbn. rewrite lookup_insert_ne by exact Hne. rewrite Hold.
    now apply onclose_removes.
Qed.

(** The same identifier given out twice. *)
Lemma identifier_given_out_twice :
  let u := MkUuid "123e4567-e89b-42d3-a456-426614174000" eq_refl in
  let st := State.Build {[ uuid_string u := 0%nat ]} {[ 0%nat := uuid_string u ]} 2 in
  let req := Request.Build "GET" (Some (uuid_string u)) None in
  let st1 := fst (step (fun _ => true) st (SessionInitialized 1%nat u)) in
  mcp (fun _ => true) st1 req = (st1, Handled 1%nat)
  ∧ State.activeTransports (fst (step (fun _ => true) st1 (Closed 0%nat)))
      !! uuid_string u = None.
Proof.
  intros u st req.
  apply (repeated_identifier_is_taken_over (fun _ => true) st 0%nat 1%nat u req);
    [reflexivity | reflexivity | cbn; lia | reflexivity | reflexivity].
Defined.

(** * Further properties of the weather tool *)

(** ** The three ways a call ends *)

(** [fold] being [String.prototype.toLowerCase] (folding twice is folding
    once): a call carries a structured payload exactly when the folded
    city is a key of the table; it throws exactly when the folded city
    is no key but the name of a member of [Object.prototype]; and it
    returns the flagged result exactly when the folded city is neither. *)
Theorem call_ends_in_one_of_three_ways (fold : string → string) data raw :
  (∀ s, fold (fold s) = fold s) →
  let key := fold (RawArgs.city raw) in
  (is_Some (structured (call_with fold data raw)) ↔ is_Some (data !! key))
  ∧ ((∃ e, Run.completion (call_with fold data raw) = Throw e)
     ↔ data !! key = None ∧ key ∈ object_prototype_keys)
  ∧ ((∃ result, Run.completion (call_with fold data raw) = Return result
                ∧ CallToolResult.isError result = Some true)
     ↔ data !! key = None ∧ key ∉ object_prototype_keys).
Proof.
  intros Hfold key.
  unfold structured, call_with, handler_with, inputSchema_with.
  cbn [Args.city Args.unit Run.completion]. rewrite Hfold. fold key. unfold get.
  destruct (data !! key) as [w|].
  - destruct (display (default metric (RawArgs.unit raw)) w). cbn. split; [|split].
    + split; eauto.
    + split; [intros [e [=]]|intros [[=] _]].
    + split; [intros (r & [= <-] & [=])|intros [[=] _]].
  - case_bool_decide as Hk; cbn; (split; [|split]).
    + split; intros [? [=]].
    + split; [now split|eauto].
    + split; [intros (r & [=] & _)|intros [_ H]; contradiction].
    + split; intros [? [=]].
    + split; [intros [e [=]]|intros [_ H]; contradiction].
    + split; [now split|intros _; eexists; split; reflexivity].
Qed.

(** The three ways, on the server's table: London, "__proto__", Atlantis. *)
Lemma london_proto_atlantis :
  ((is_Some (structured (get_city_weather (RawArgs.Build "LONDON" None)))
    ↔ is_Some (dummyWeatherData !! "london"%string))
   ∧ ((∃ e, Run.completion (get_city_weather (RawArgs.Build "LONDON" None)) = Throw e)
      ↔ dummyWeatherData !! "london"%string = None
        ∧ "london"%string ∈ object_prototype_keys)
   ∧ ((∃ result, Run.completion (get_city_weather (RawArgs.Build "LONDON" None)) = Return result
                 ∧ CallToolResult.isError result = Some true)
      ↔ dummyWeatherData !! "london"%string = None
        ∧ "london"%string ∉ object_prototype_keys))
  ∧ is_Some (structured (get_city_weather (RawArgs.Build "LONDON" None)))
  ∧ (∃ e, Run.completion (get_city_weather (RawArgs.Build "__proto__" None)) = Throw e)
  ∧ (∃ result, Run.completion (get_city_weather (RawArgs.Build "Atlantis" None)) = Return result
               ∧ CallToolResult.isError result = Some true).
Proof.
  split; [exact (call_ends_in_one_of_three_ways toLowerCase dummyWeatherData
                   (RawArgs.Build "LONDON" None) toLowerCase_idempotent)|].
  split; [vm_compute; eauto|]. split; eexists; [|split]; reflexivity.
Defined.

(** ** A city that is not known, in any script *)

(** [fold] being [String.prototype.toLowerCase] (folding twice is folding
    once): for every city whose folded form is neither a key of the
    table nor the name of a member of [Object.prototype], the call
    returns the flagged result, whose one text block names the folded
    city, and no structured payload. *)
Theorem unknown_city_is_reported (fold : string → string) data raw :
  (∀ s, fold (fold s) = fold s) →
  data !! fold (RawArgs.city raw) = None →
  fold (RawArgs.city raw) ∉ object_prototype_keys →
  Run.completion (call_with fold data raw) =
    Return (CallToolResult.Build (Some true)
      [TextContent [Str ("Sorry, I don't have weather data for "
                         +:+ fold (RawArgs.city raw) +:+ ".")]]
      None).
Proof.
  intros Hfold Hn Hk. unfold call_with, handler_with, inputSchema_with.
  cbn [Args.city Args.unit Run.completion]. rewrite Hfold.
  assert (get data (fold (RawArgs.city raw)) = Undefined) as ->; [|reflexivity].
  apply get_undefined. now split.
Qed.

(** El Dorado is not in the server's table. *)
Lemma el_dorado_is_reported :
  Run.completion (get_city_weather (RawArgs.Build "El Dorado" None))
  = Return (CallToolResult.Build (Some true)
      [TextContent [Str "Sorry, I don't have weather data for el dorado."]] None).
Proof.
  apply (unknown_city_is_reported toLowerCase dummyWeatherData
           (RawArgs.Build "El Dorado" None) toLowerCase_idempotent); [reflexivity|].
  unfold object_prototype_keys. rewrite !not_elem_of_cons.
  repeat split; try discriminate. apply not_elem_of_nil.
Defined.

(** ** Text and payload *)

(** On success the text block shows the numbers and the unit of the
    payload: its temperature, "C" for metric and "F" for imperial, its
    description and its humidity, for the city of the payload. *)
Theorem text_shows_the_payload data raw s :
  structured (call_on data raw) = Some s →
  Run.completion (call_on data raw)
  = Return (CallToolResult.Build None
      [TextContent
         [ Str ("The weather in " +:+ StructuredOutput.city s +:+ " is ");
           Num (StructuredOutput.temperature s);
           Str ("°" +:+ match StructuredOutput.unit s with metric => "C" | imperial => "F" end
                +:+ ", " +:+ StructuredOutput.description s +:+ " with ");
           Num (StructuredOutput.humidity s);
           Str "% humidity." ]]
      (Some s)).
Proof.
  intros Hs. destruct (structured_only_for_known _ _ _ Hs) as (w & text & Hw & _).
  rewrite (call_on_known _ _ _ Hw) in Hs |- *. cbn in Hs |- *.
  injection Hs as <-. cbn.
  now destruct (snd (display (default metric (RawArgs.unit raw)) w)).
Qed.

(** Tokyo in imperial: 71.6 degrees, shown with an F. *)
Lemma tokyo_text_shows_the_payload :
  let s := StructuredOutput.Build "tokyo" (number_of_tenths 716) imperial "Sunny" (of_Z 60) in
  Run.completion (get_city_weather (RawArgs.Build "TOKYO" (Some imperial)))
  = Return (CallToolResult.Build None
      [TextContent
         [ Str "The weather in tokyo is "; Num (number_of_tenths 716);
           Str "°F, Sunny with "; Num (of_Z 60); Str "% humidity." ]]
      (Some s)).
Proof.
  intros s.
  apply (text_shows_the_payload dummyWeatherData (RawArgs.Build "TOKYO" (Some imperial)) s).
  vm_compute. reflexivity.
Defined.

(** ** Readings that are not finite *)

(** A reading that is [NaN] or an infinity comes back as it is, whatever
    the units of the record and of the request. *)
Theorem non_finite_reading_passes_through data raw w :
  data !! toLowerCase (RawArgs.city raw) = Some w →
  WeatherData.temperature w = S754_nan
  ∨ (∃ negative, WeatherData.temperature w = S754_infinity negative) →
  StructuredOutput.temperature <$> structured (call_on data raw)
  = Some (WeatherData.temperature w).
Proof.
  intros Hw Ht. rewrite (structured_known _ _ _ Hw). cbn. f_equal.
  unfold display.
  destruct Ht as [->|[negative ->]];
    destruct (default metric (RawArgs.unit raw)), (WeatherData.unit w);
    try destruct negative; reflexivity.
Qed.

(** A sensor that reports [NaN], asked for in imperial. *)
Lemma nan_reading_passes_through :
  StructuredOutput.temperature
    <$> structured (call_on {[ "nowhere" := WeatherData.Build S754_nan "" (of_Z 0) metric ]}%string
                      (RawArgs.Build "nowhere" (Some imperial)))
  = Some S754_nan.
Proof.
  apply (non_finite_reading_passes_through
           {[ "nowhere" := WeatherData.Build S754_nan "" (of_Z 0) metric ]}%string
           (RawArgs.Build "nowhere" (Some imperial))
           (WeatherData.Build S754_nan "" (of_Z 0) metric));
    [reflexivity | now left].
Defined.

(** ** There and back *)

Lemma there_and_back_in_range z : -1000 <= z <= 1000 -> there_and_back z = true.
Proof.
  intros H.
  assert (Hall : forallb there_and_back (integers_from (-1000) 2001) = true)
    by (vm_compute; reflexivity).
  rewrite forallb_forall in Hall. apply Hall, integers_from_spec. lia.
Qed.

(** A whole-degree Celsius reading between -1000 and 1000, asked for in
    imperial, and the number returned, held by an imperial record and
    asked for in metric, give the original reading: the two conversions
    with their roundings to one decimal undo each other. *)
Theorem celsius_to_fahrenheit_and_back data data' city city' w w' z :
  data !! toLowerCase city = Some w →
  WeatherData.unit w = metric →
  WeatherData.temperature w = of_Z z →
  -1000 <= z <= 1000 →
  data' !! toLowerCase city' = Some w' →
  WeatherData.unit w' = imperial →
  StructuredOutput.temperature
    <$> structured (call_on data (RawArgs.Build city (Some imperial)))
  = Some (WeatherData.temperature w') →
  StructuredOutput.temperature
    <$> structured (call_on data' (RawArgs.Build city' None))
  = Some (of_Z z).
Proof.
  intros Hw Hu Ht Hz Hw' Hu' Hthere.
  rewrite (structured_known _ (RawArgs.Build city (Some imperial)) _ Hw) in Hthere.
  cbn in Hthere. injection Hthere as Hthere.
  rewrite (structured_known _ (RawArgs.Build city' None) _ Hw'). cbn. f_equal.
  pose proof (there_and_back_in_range z Hz) as Hb. unfold there_and_back in Hb.
  apply bool_decide_eq_true_1 in Hb. rewrite <- Hb. do 2 f_equal.
  rewrite (display_reading imperial w z Ht), Hu in Hthere.
  destruct w' as [t' d' h' u']. cbn in *. subst u'. now rewrite <- Hthere.
Qed.

(** London's 12 degrees: 53.6 Fahrenheit, and 12 degrees again. *)
Lemma london_there_and_back :
  StructuredOutput.temperature
    <$> structured (call_on {[ "london" := WeatherData.Build (number_of_tenths 536) "Rainy"
                                             (of_Z 85) imperial ]}%string
                      (RawArgs.Build "London" None))
  = Some (of_Z 12).
Proof.
  apply (celsius_to_fahrenheit_and_back dummyWeatherData
           {[ "london" := WeatherData.Build (number_of_tenths 536) "Rainy" (of_Z 85) imperial ]}%string
           "London" "London"
           (WeatherData.Build (of_Z 12) "Rainy" (of_Z 85) metric)
           (WeatherData.Build (number_of_tenths 536) "Rainy" (of_Z 85) imperial) 12);
    [reflexivity | reflexivity | reflexivity | lia | reflexivity | reflexivity
    | vm_compute; reflexivity].
Defined.

(** The other way round the roundings do not undo each other: 33
    degrees Fahrenheit are returned as 0.6 Celsius, and 0.6 Celsius as
    33.1 Fahrenheit. *)
Example fahrenheit_to_celsius_and_back_differs :
  parseFloat (toFixed1 (fst (display metric (reading 33 imperial)))) = number_of_tenths 6
  ∧ parseFloat (toFixed1 (fst (display imperial
        (WeatherData.Build (number_of_tenths 6) "" (of_Z 0) metric))))
    = number_of_tenths 331.
Proof. vm_compute. split; reflexivity. Qed.

(** ** Rounding and sign *)

Lemma binary_round_aux_opp s m e l :
  binary_round_aux prec emax (negb s) m e l = SFopp (binary_round_aux prec emax s m e l).
Proof.
  unfold binary_round_aux.
  destruct (shr_fexp prec emax m e l) as [mrs' e'].
  destruct (shr_fexp prec emax _ e' loc_Exact) as [mrs'' e''].
  destruct (shr_m mrs''); [reflexivity| |reflexivity].
  now destruct (e'' <=? emax - prec).
Qed.

(** [parseFloat(x.toFixed(1))] treats a value and its opposite alike:
    the digits are those of the magnitude, so a half goes away from
    zero on both sides; and both zeros come back as [+0]. *)
Theorem rounding_is_symmetric s m e :
  parseFloat (toFixed1 (S754_finite (negb s) m e))
  = SFopp (parseFloat (toFixed1 (S754_finite s m e)))
  ∧ parseFloat (toFixed1 (S754_zero s)) = S754_zero false.
Proof.
  split; [|reflexivity]. unfold toFixed1.
  destruct (at_least_1e21 m e); [reflexivity|].
  unfold parseFloat. destruct (tenths_of m e) as [|p|p]; [reflexivity| |reflexivity].
  unfold div, SFdiv.
  destruct (SFdiv_core_binary prec emax (Zpos p) 0 10 0) as [[mz ez] lz].
  rewrite !xorb_false_r. apply binary_round_aux_opp.
Qed.

(** A quarter of a degree below and above zero: -0.3 and 0.3. *)
Example quarter_degree_either_side :
  parseFloat (toFixed1 (div (of_Z 1) (of_Z 4))) = number_of_tenths 3
  ∧ parseFloat (toFixed1 (div (of_Z (-1)) (of_Z 4))) = number_of_tenths (-3).
Proof. vm_compute. split; reflexivity. Qed.
